(** * PyShell: a shallow embedding of [backend/command_processor.py]

    The [CommandProcessor] of PyShell emulates a shell inside a jail
    directory ([terminal_root]).  This file embeds the parts of it that the
    specification talks about: the Python string helpers it relies on
    ([str.strip], [str.lower], [str.splitlines], [shlex.split], [in]),
    [pathlib] paths and the host file system they act on, the dispatcher
    [execute] and the handlers [cd], [pwd], [mkdir], [grep], [uniq] and
    [help]; then the file and text handlers [ls], [rm], [rmdir], [touch],
    [cat], [ln], [file], [head], [tail], [sort], [wc] and [cut], and the
    [autocomplete] endpoint of [main.py].

    Modelling choices:
    - Python [str] values are Rocq [string]s of ASCII characters.
    - A [pathlib.Path] is the list of its components; [str] of an absolute
      path is ["/"] followed by the components joined with ["/"].
    - The host file system is an association list from real (symlink-free)
      absolute paths to nodes; the root directory [/] always exists.
      Symbolic link targets are stored as absolute component lists, which is
      what [ln] creates ([current_dir / target] is absolute).
    - A handler runs in the state monad of the processor and may raise a
      Python exception, which is a type name and a message. *)

From Stdlib Require Import String Ascii List Bool Arith Lia.
From Stdlib Require Import Sorting.Sorted Sorting.Permutation.
Import ListNotations.
Open Scope list_scope.
Open Scope string_scope.

(** ** Characters and Python string helpers *)

Definition chr (n : nat) : ascii := ascii_of_nat n.
Definition nl : string := String (chr 10) EmptyString.
Definition sstr (c : ascii) : string := String c EmptyString.

(** [str.isspace] on ASCII: \t \n \v \f \r, the separators \x1c-\x1f and
    the space. *)
Definition py_isspace (c : ascii) : bool :=
  let n := nat_of_ascii c in
  (Nat.leb 9 n && Nat.leb n 13) || (Nat.leb 28 n && Nat.leb n 32).

Fixpoint lstrip (s : string) : string :=
  match s with
  | EmptyString => EmptyString
  | String c r => if py_isspace c then lstrip r else s
  end.

Fixpoint rev_string (s : string) : string :=
  match s with
  | EmptyString => EmptyString
  | String c r => rev_string r ++ sstr c
  end.

(** [str.strip()] with no argument. *)
Definition py_strip (s : string) : string :=
  rev_string (lstrip (rev_string (lstrip s))).

Definition lower_char (c : ascii) : ascii :=
  let n := nat_of_ascii c in
  if Nat.leb 65 n && Nat.leb n 90 then ascii_of_nat (n + 32) else c.

(** [str.lower()] on ASCII. *)
Fixpoint py_lower (s : string) : string :=
  match s with
  | EmptyString => EmptyString
  | String c r => String (lower_char c) (py_lower r)
  end.

(** [sep.join(xs)]. *)
Definition py_join (sep : string) (xs : list string) : string :=
  String.concat sep xs.

(** [s.startswith(p)]. *)
Fixpoint startswith (s p : string) {struct p} : bool :=
  match p, s with
  | EmptyString, _ => true
  | String a p', String b s' => Ascii.eqb a b && startswith s' p'
  | String _ _, EmptyString => false
  end.

(** Whether the character [c] occurs in [s]. *)
Fixpoint has_char (c : ascii) (s : string) : bool :=
  match s with
  | EmptyString => false
  | String x r => Ascii.eqb x c || has_char c r
  end.

(** [p in s] for strings: substring test. *)
Fixpoint py_in (p s : string) : bool :=
  startswith s p ||
  match s with
  | EmptyString => false
  | String _ r => py_in p r
  end.

(** [str(n)] for a non-negative integer. *)
Fixpoint digits_aux (fuel n : nat) (acc : string) : string :=
  match fuel with
  | O => acc
  | S f =>
      let acc' := String (chr (48 + n mod 10)) acc in
      if Nat.ltb n 10 then acc' else digits_aux f (n / 10) acc'
  end.

Definition py_str_int (n : nat) : string := digits_aux (S n) n EmptyString.

(** [str.splitlines()] (no [keepends]) on ASCII: the line boundaries are
    \n, \r, \r\n, \v, \f, \x1c, \x1d and \x1e.  [cur] is the current line,
    reversed; [started] says whether a line has begun since the last
    boundary (a trailing boundary does not open an empty last line). *)
Definition is_line_break (c : ascii) : bool :=
  let n := nat_of_ascii c in
  Nat.eqb n 10 || Nat.eqb n 11 || Nat.eqb n 12 || Nat.eqb n 13
  || Nat.eqb n 28 || Nat.eqb n 29 || Nat.eqb n 30.

Fixpoint splitlines_aux (s : string) (cur : string) (started : bool)
  : list string :=
  match s with
  | EmptyString => if started then [rev_string cur] else []
  | String c r =>
      if is_line_break c then
        let r' := if Nat.eqb (nat_of_ascii c) 13 then
                    match r with
                    | String d r2 => if Nat.eqb (nat_of_ascii d) 10 then r2 else r
                    | EmptyString => r
                    end
                  else r in
        rev_string cur :: splitlines_aux r' EmptyString false
      else splitlines_aux r (String c cur) true
  end.

Definition splitlines (s : string) : list string :=
  splitlines_aux s EmptyString false.

(** [Path.read_text()] opens the file in text mode with universal newlines:
    \r\n and a lone \r are read as \n. *)
Fixpoint universal_newlines (s : string) : string :=
  match s with
  | EmptyString => EmptyString
  | String c r =>
      if Nat.eqb (nat_of_ascii c) 13 then
        match r with
        | String d r2 =>
            if Nat.eqb (nat_of_ascii d) 10 then String (chr 10) (universal_newlines r2)
            else String (chr 10) (universal_newlines r)
        | EmptyString => String (chr 10) EmptyString
        end
      else String c (universal_newlines r)
  end.

(** ** [shlex.split] (POSIX mode, [whitespace_split=True], no comments)

    The lexer of [shlex.shlex.read_token]: the whitespace is " \t\r\n", the
    escape character is the backslash, the quotes are ' and ", and only "
    lets the backslash escape inside it.  The mode [LWord] is the state
    ['a'], [LQuote q] the quoting states and [LEsc ret] the escape state
    with its [escapedstate]. *)
Inductive lexmode : Type :=
| LSpace
| LWord
| LQuote (q : ascii)
| LEsc (ret : lexmode).

Definition shlex_space (c : ascii) : bool :=
  let n := nat_of_ascii c in
  Nat.eqb n 32 || Nat.eqb n 9 || Nat.eqb n 13 || Nat.eqb n 10.

Definition is_backslash (c : ascii) : bool := Nat.eqb (nat_of_ascii c) 92.
Definition is_dquote (c : ascii) : bool := Nat.eqb (nat_of_ascii c) 34.
Definition is_squote (c : ascii) : bool := Nat.eqb (nat_of_ascii c) 39.
Definition is_quote (c : ascii) : bool := is_dquote c || is_squote c.

(** The exceptions [shlex.split] raises. *)
Definition err_no_closing : string := "No closing quotation".
Definition err_no_escaped : string := "No escaped character".

(** [tok] is the token being read, reversed; [quoted] is the [quoted] flag
    of [read_token]; [acc] the tokens already read, reversed. *)
Fixpoint shlex_loop (s : string) (m : lexmode) (tok : string) (quoted : bool)
  (acc : list string) : string + list string :=
  match s with
  | EmptyString =>
      match m with
      | LSpace => inr (rev acc)
      | LWord => inr (rev (rev_string tok :: acc))
      | LQuote _ => inl err_no_closing
      | LEsc _ => inl err_no_escaped
      end
  | String c r =>
      match m with
      | LSpace =>
          if shlex_space c then shlex_loop r LSpace tok quoted acc
          else if is_backslash c then shlex_loop r (LEsc LWord) tok quoted acc
          else if is_quote c then shlex_loop r (LQuote c) tok true acc
          else shlex_loop r LWord (String c tok) quoted acc
      | LWord =>
          if shlex_space c then
            shlex_loop r LSpace EmptyString false (rev_string tok :: acc)
          else if is_quote c then shlex_loop r (LQuote c) tok true acc
          else if is_backslash c then shlex_loop r (LEsc LWord) tok quoted acc
          else shlex_loop r LWord (String c tok) quoted acc
      | LQuote q =>
          if Ascii.eqb c q then shlex_loop r LWord tok quoted acc
          else if is_backslash c && is_dquote q then
            shlex_loop r (LEsc (LQuote q)) tok quoted acc
          else shlex_loop r (LQuote q) (String c tok) quoted acc
      | LEsc ret =>
          let tok1 := match ret with
                      | LQuote q =>
                          if negb (is_backslash c) && negb (Ascii.eqb c q)
                          then String (chr 92) tok else tok
                      | _ => tok
                      end in
          shlex_loop r ret (String c tok1) quoted acc
      end
  end.

(** [shlex.split(s)]: [inl msg] is the [ValueError(msg)] it raises. *)
Definition shlex_split (s : string) : string + list string :=
  shlex_loop s LSpace EmptyString false [].

(** ** Paths *)

Definition path := list string.

(** Components of a path string as [pathlib] parses them: empty components
    and ["."] are dropped, [".."] is kept. *)
Fixpoint split_on (c : ascii) (s : string) : list string :=
  match s with
  | EmptyString => [EmptyString]
  | String x r =>
      let rest := split_on c r in
      if Ascii.eqb x c then EmptyString :: rest
      else match rest with
           | h :: t => String x h :: t
           | [] => [sstr x]
           end
  end.

Definition slash : ascii := "/"%char.

Definition parse_parts (s : string) : path :=
  filter (fun x => negb (String.eqb x "" || String.eqb x ".")) (split_on slash s).

(** [p / s]: an absolute [s] replaces [p]; [".."] is not collapsed. *)
Definition path_div (p : path) (s : string) : path :=
  match s with
  | String c _ => if Ascii.eqb c slash then parse_parts s else (p ++ parse_parts s)%list
  | EmptyString => p
  end.

(** [str(p)] of an absolute path. *)
Definition path_str (p : path) : string := "/" ++ py_join "/" p.

(** [Path.parent]. *)
Definition parent (p : path) : path := removelast p.

Fixpoint strip_prefix (pre p : path) : option path :=
  match pre, p with
  | [], _ => Some p
  | a :: pre', b :: p' => if String.eqb a b then strip_prefix pre' p' else None
  | _ :: _, [] => None
  end.

(** [str] of a relative path: the empty path prints as ["."]. *)
Definition rel_str (p : path) : string :=
  match p with
  | [] => "."
  | _ => py_join "/" p
  end.

(** ** The host file system *)

Inductive node : Type :=
| NDir
| NFile (content : string)
| NLink (target : path).

Definition fsys := list (path * node).

Fixpoint path_eqb (p q : path) : bool :=
  match p, q with
  | [], [] => true
  | a :: p', b :: q' => String.eqb a b && path_eqb p' q'
  | _, _ => false
  end.

(** [os.lstat]: the entry stored at a real path; [/] is a directory. *)
Fixpoint lookup (fs : fsys) (p : path) : option node :=
  match fs with
  | [] => match p with [] => Some NDir | _ => None end
  | (q, n) :: fs' => if path_eqb p q then Some n else lookup fs' p
  end.

(** Errors of the kernel's path walk, as [errno] names. *)
Inductive errno : Type := ENOENT | ENOTDIR | ELOOP | EEXIST.

(** What the kernel's path walk reaches: a directory or a file at a real
    path, nothing (the last component is missing), or an error. *)
Inductive kres : Type :=
| KDir (real : path)
| KFile (real : path)
| KNone
| KErr (e : errno).

(** The kernel's path walk from the real directory [cur], following every
    symbolic link (also the last component); [fuel] bounds the nesting of
    link expansions, past which the walk fails with [ELOOP] as the
    kernel's [MAXSYMLINKS] does. *)
Fixpoint kwalk (fuel : nat) (fs : fsys) (cur : path) (comps : list string)
  {struct fuel} : kres :=
  match fuel with
  | O => KErr ELOOP
  | S f =>
      (fix go (cur : path) (comps : list string) : kres :=
         match comps with
         | [] => KDir cur
         | c :: rest =>
             if String.eqb c ".." then go (parent cur) rest
             else if String.eqb c "" || String.eqb c "." then go cur rest
             else
               let p := (cur ++ [c])%list in
               let last := match rest with [] => true | _ => false end in
               match lookup fs p with
               | None => if last then KNone else KErr ENOENT
               | Some NDir => go p rest
               | Some (NFile _) => if last then KFile p else KErr ENOTDIR
               | Some (NLink t) =>
                   match kwalk f fs [] t with
                   | KDir q => go q rest
                   | KFile q => if last then KFile q else KErr ENOTDIR
                   | KNone => if last then KNone else KErr ENOENT
                   | KErr e => KErr e
                   end
               end
         end) cur comps
  end.

Definition maxsymlinks : nat := 40.

Definition kstat (fs : fsys) (p : path) : kres := kwalk maxsymlinks fs [] p.

(** [Path.exists()], [Path.is_dir()], [Path.is_file()]: errors of the walk
    read as [False]. *)
Definition path_exists (fs : fsys) (p : path) : bool :=
  match kstat fs p with KDir _ | KFile _ => true | _ => false end.

Definition path_is_dir (fs : fsys) (p : path) : bool :=
  match kstat fs p with KDir _ => true | _ => false end.

Definition path_is_file (fs : fsys) (p : path) : bool :=
  match kstat fs p with KFile _ => true | _ => false end.

(** The content [open(p).read()] returns, when [p] is a regular file. *)
Definition read_file (fs : fsys) (p : path) : option string :=
  match kstat fs p with
  | KFile q => match lookup fs q with Some (NFile c) => Some c | _ => None end
  | _ => None
  end.

(** [Path.read_text()]. *)
Definition read_text (fs : fsys) (p : path) : option string :=
  option_map universal_newlines (read_file fs p).

(** [os.mkdir(p)]: the parent must be reached as a directory, the last
    component must not name an entry (a dangling link counts). *)
Definition os_mkdir (fs : fsys) (p : path) : fsys + errno :=
  match p with
  | [] => inr EEXIST
  | _ =>
      let name := last p "" in
      match kstat fs (parent p) with
      | KDir d =>
          if String.eqb name ".." then inr EEXIST
          else match lookup fs ((d ++ [name])%list) with
               | Some _ => inr EEXIST
               | None => inl (((d ++ [name])%list, NDir) :: fs)
               end
      | KFile _ => inr ENOTDIR
      | KNone => inr ENOENT
      | KErr e => inr e
      end
  end.

(** [Path.mkdir(parents, exist_ok)]:
<<
    try:
        os.mkdir(self, mode)
    except FileNotFoundError:
        if not parents or self.parent == self:
            raise
        self.parent.mkdir(parents=True, exist_ok=True)
        self.mkdir(mode, parents=False, exist_ok=exist_ok)
    except OSError:
        if not exist_ok or not self.is_dir():
            raise
>>
    The recursion is on the parent, so [fuel] is the length of the path. *)
Fixpoint path_mkdir (fuel : nat) (fs : fsys) (p : path) (parents exist_ok : bool)
  : fsys * option errno :=
  let other (fs0 : fsys) (e : errno) :=
    if negb exist_ok || negb (path_is_dir fs0 p) then (fs0, Some e) else (fs0, None) in
  match os_mkdir fs p with
  | inl fs' => (fs', None)
  | inr ENOENT =>
      if negb parents || path_eqb (parent p) p then (fs, Some ENOENT) else
      match fuel with
      | O => (fs, Some ENOENT)
      | S f =>
          let (fs1, r1) := path_mkdir f fs (parent p) true true in
          match r1 with
          | Some e => (fs1, Some e)
          | None =>
              match os_mkdir fs1 p with
              | inl fs2 => (fs2, None)
              | inr ENOENT => (fs1, Some ENOENT)
              | inr e => other fs1 e
              end
          end
      end
  | inr e => other fs e
  end.

Definition mkdir (fs : fsys) (p : path) (parents exist_ok : bool) : fsys * option errno :=
  path_mkdir (length p) fs p parents exist_ok.

(** [os.path.normpath] of an absolute path: [".."] removes the previous
    component (and stays at [/]). *)
Fixpoint normpath_aux (acc : path) (ps : list string) : path :=
  match ps with
  | [] => acc
  | c :: r =>
      if String.eqb c ".." then normpath_aux (parent acc) r
      else if String.eqb c "" || String.eqb c "." then normpath_aux acc r
      else normpath_aux ((acc ++ [c])%list) r
  end.

Definition normpath (p : path) : path := normpath_aux [] p.

(** [posixpath._joinrealpath(path, rest, strict=False, seen)]: [path] is
    already resolved, [seen] maps a link to its resolution ([None] while it
    is being resolved, which detects loops).  Every link expansion adds a
    new link of [fs] to [seen], so [S (length fs)] is enough fuel. *)
Fixpoint joinrealpath (fuel : nat) (fs : fsys) (p : path) (rest : list string)
  (seen : list (path * option path)) {struct fuel}
  : path * bool * list (path * option path) :=
  match fuel with
  | O => ((p ++ rest)%list, false, seen)
  | S f =>
      (fix go (p : path) (rest : list string) (seen : list (path * option path))
         : path * bool * list (path * option path) :=
         match rest with
         | [] => (p, true, seen)
         | name :: rest' =>
             if String.eqb name "" || String.eqb name "." then go p rest' seen
             else if String.eqb name ".." then go (parent p) rest' seen
             else
               let newpath := (p ++ [name])%list in
               match lookup fs newpath with
               | Some (NLink t) =>
                   match find (fun e => path_eqb (fst e) newpath) seen with
                   | Some (_, Some q) => go q rest' seen
                   | Some (_, None) => ((newpath ++ rest')%list, false, seen)
                   | None =>
                       match joinrealpath f fs [] t ((newpath, None) :: seen) with
                       | (q, true, seen1) => go q rest' ((newpath, Some q) :: seen1)
                       | (q, false, seen1) => ((q ++ rest')%list, false, seen1)
                       end
                   end
               | _ => go newpath rest' seen
               end
         end) p rest seen
  end.

(** [os.path.realpath(p)] (non-strict) of an absolute path. *)
Definition realpath (fs : fsys) (p : path) : path :=
  match joinrealpath (S (length fs)) fs [] p [] with
  | (q, _, _) => normpath q
  end.

(** ** Python exceptions and the processor state *)

Record py_exn : Type := mk_exn { exn_type : string; exn_msg : string }.

Definition errno_num (e : errno) : nat :=
  match e with ENOENT => 2 | ENOTDIR => 20 | ELOOP => 40 | EEXIST => 17 end.

Definition errno_class (e : errno) : string :=
  match e with
  | ENOENT => "FileNotFoundError"
  | ENOTDIR => "NotADirectoryError"
  | ELOOP => "OSError"
  | EEXIST => "FileExistsError"
  end.

Definition strerror (e : errno) : string :=
  match e with
  | ENOENT => "No such file or directory"
  | ENOTDIR => "Not a directory"
  | ELOOP => "Too many levels of symbolic links"
  | EEXIST => "File exists"
  end.

(** The [OSError] raised for [errno] on a path. *)
Definition os_error (e : errno) (p : path) : py_exn :=
  mk_exn (errno_class e)
    ("[Errno " ++ py_str_int (errno_num e) ++ "] " ++ strerror e ++ ": '"
     ++ path_str p ++ "'").

(** [Path.resolve()] (non-strict, Python 3.10-3.12): [realpath], then a
    [stat] whose [ELOOP] is raised as a [RuntimeError]. *)
Definition resolve (fs : fsys) (p : path) : py_exn + path :=
  let q := realpath fs p in
  match kstat fs q with
  | KErr ELOOP => inl (mk_exn "RuntimeError" ("Symlink loop from '" ++ path_str q ++ "'"))
  | _ => inr q
  end.

(** [Path.relative_to(root)]. *)
Definition relative_to (p root : path) : py_exn + path :=
  match strip_prefix root p with
  | Some rel => inr rel
  | None =>
      inl (mk_exn "ValueError"
             ("'" ++ path_str p ++ "' is not in the subpath of '" ++ path_str root
              ++ "' OR one path is relative and the other is absolute."))
  end.

(** The state a handler sees: the attributes of the [CommandProcessor]
    and the host file system. *)
Record session : Type := mk_session {
  terminal_root : path;
  current_dir : path;
  host : fsys
}.

Definition set_current_dir (s : session) (p : path) : session :=
  mk_session (terminal_root s) p (host s).

Definition set_host (s : session) (fs : fsys) : session :=
  mk_session (terminal_root s) (current_dir s) fs.

(** What a handler call ends with: a return value ([None] for Python's
    [None]) or a raised exception. *)
Inductive outcome : Type :=
| Ret (r : option string)
| Raise (e : py_exn).

Definition ok (r : string) : outcome := Ret (Some r).

Definition handler := list string -> session -> outcome * session.

(** ** Handlers *)

(** [cmd_cd]. *)
Definition cmd_cd (args : list string) (s : session) : outcome * session :=
  match args with
  | [] =>
      let s' := set_current_dir s ((terminal_root s ++ ["home"])%list) in
      (ok ("Changed to home directory: " ++ path_str (current_dir s')), s')
  | target :: _ =>
      if String.eqb target ".." then
        let s' := if negb (path_eqb (current_dir s) (terminal_root s))
                  then set_current_dir s (parent (current_dir s)) else s in
        (ok ("Changed to parent directory: " ++ path_str (current_dir s')), s')
      else if String.eqb target "~" then
        let s' := set_current_dir s ((terminal_root s ++ ["home"])%list) in
        (ok ("Changed to home directory: " ++ path_str (current_dir s')), s')
      else
        match resolve (host s) (path_div (current_dir s) target) with
        | inl e => (Raise e, s)
        | inr new_path =>
            if startswith (path_str new_path) (path_str (terminal_root s))
               && path_exists (host s) new_path && path_is_dir (host s) new_path
            then
              let s' := set_current_dir s new_path in
              match relative_to (current_dir s') (terminal_root s') with
              | inr rel => (ok ("Changed to: " ++ rel_str rel), s')
              | inl e => (Raise e, s')
              end
            else (ok ("Directory not found: " ++ target), s)
        end
  end.

(** [cmd_pwd]. *)
Definition cmd_pwd (args : list string) (s : session) : outcome * session :=
  match relative_to (current_dir s) (terminal_root s) with
  | inr rel => (ok (rel_str rel), s)
  | inl e => (Raise e, s)
  end.

(** [cmd_mkdir]: [new_dir.mkdir(parents=True, exist_ok=False)]; only
    [FileExistsError] (and [PermissionError], which this model has no
    permissions to raise) is caught. *)
Definition cmd_mkdir (args : list string) (s : session) : outcome * session :=
  match args with
  | [] => (ok "mkdir: missing operand", s)
  | dirname :: _ =>
      let new_dir := path_div (current_dir s) dirname in
      let (fs', r) := mkdir (host s) new_dir true false in
      let s' := set_host s fs' in
      match r with
      | None => (ok ("Created directory: " ++ dirname), s')
      | Some EEXIST => (ok ("Directory already exists: " ++ dirname), s')
      | Some e => (Raise (os_error e new_dir), s')
      end
  end.

(** [cmd_echo] and [cmd_clear]. *)
Definition cmd_echo (args : list string) (s : session) : outcome * session :=
  (ok (py_join " " args), s).

Definition cmd_clear (args : list string) (s : session) : outcome * session :=
  (ok "<CLEAR_SCREEN>", s).

(** The file a text handler reads: [file.read_text()] after
    [file.is_file()]. *)
Definition with_text (s : session) (p : path) (name : string)
  (k : string -> string) : outcome * session :=
  if path_is_file (host s) p then
    match read_text (host s) p with
    | Some text => (ok (k text), s)
    | None => (Raise (os_error ENOENT p), s)
    end
  else (ok ("No such file: " ++ name), s).

(** [[f"{i+1}:{line}" for i, line in enumerate(lines) if pattern in line]],
    [i] being the 0-based index of the first line of [lines]. *)
Fixpoint grep_matches (pattern : string) (i : nat) (lines : list string)
  : list string :=
  match lines with
  | [] => []
  | line :: t =>
      let r := grep_matches pattern (S i) t in
      if py_in pattern line then (py_str_int (S i) ++ ":" ++ line) :: r else r
  end.

(** [cmd_grep]. *)
Definition cmd_grep (args : list string) (s : session) : outcome * session :=
  match args with
  | pattern :: filename :: _ =>
      with_text s (path_div (current_dir s) filename) filename
        (fun text =>
           match grep_matches pattern 0 (splitlines text) with
           | [] => "(no matches)"
           | matches => py_join nl matches
           end)
  | _ => (ok "Usage: grep <pattern> <file>", s)
  end.

(** The loop of [cmd_uniq]:
<<
    for line in lines:
        if line != prev_line:
            unique_lines.append(line)
            prev_line = line
>> *)
Fixpoint uniq_loop (prev_line : option string) (lines : list string) : list string :=
  match lines with
  | [] => []
  | line :: t =>
      let differs := match prev_line with
                     | None => true
                     | Some p => negb (String.eqb line p)
                     end in
      if differs then line :: uniq_loop (Some line) t else uniq_loop prev_line t
  end.

(** [cmd_uniq]. *)
Definition cmd_uniq (args : list string) (s : session) : outcome * session :=
  match args with
  | [] => (ok "Usage: uniq <file>", s)
  | name :: _ =>
      with_text s (path_div (current_dir s) name) name
        (fun text => py_join nl (uniq_loop None (splitlines text)))
  end.

(** ** [cmd_help] *)

(** [sorted()] on strings: insertion sort by code points (Python's
    ordering of [str]). *)
Fixpoint insert_sorted (x : string) (l : list string) : list string :=
  match l with
  | [] => [x]
  | h :: t => if String.leb x h then x :: h :: t else h :: insert_sorted x t
  end.

Fixpoint py_sorted (l : list string) : list string :=
  match l with
  | [] => []
  | h :: t => insert_sorted h (py_sorted t)
  end.

(** [f"{cmd:<10}"]. *)
Fixpoint spaces (n : nat) : string :=
  match n with O => "" | S k => " " ++ spaces k end.

Definition ljust (w : nat) (s : string) : string := s ++ spaces (w - String.length s).

(** The [categories] table and the [order] of [cmd_help]. *)
Definition help_categories : list (string * list string) := [
  ("File & Directory Operations", ["ls"; "cd"; "pwd"; "mkdir"; "rm"; "rmdir";
     "touch"; "cat"; "echo"; "mv"; "cp"; "ln"; "chmod"; "chown"; "file"; "stat"]);
  ("Text Processing", ["head"; "tail"; "grep"; "sed"; "awk"; "sort"; "uniq";
     "wc"; "cut"]);
  ("System Information", ["whoami"; "date"; "uptime"; "uname"; "df"; "du";
     "free"; "top"; "ps"; "kill"; "killall"; "jobs"; "bg"; "fg"]);
  ("Network & Utilities", ["ping"; "curl"; "wget"; "ssh"; "scp"; "tar"; "zip";
     "unzip"]);
  ("Terminal Control", ["clear"; "history"; "alias"; "export"; "env"; "which";
     "whereis"]);
  ("Help & Documentation", ["help"; "man"; "info"])].

Definition help_order : list string := [
  "File & Directory Operations"; "Text Processing"; "System Information";
  "Network & Utilities"; "Terminal Control"; "Help & Documentation"].

(** [d.get(k, [])] on an association list. *)
Definition assoc_get {A : Type} (d : list (string * A)) (k : string) : option A :=
  option_map snd (find (fun e => String.eqb (fst e) k) d).

Definition category_cmds (category : string) : list string :=
  match assoc_get help_categories category with Some l => l | None => [] end.

(** One line of the table, when [cmd in COMMAND_HELP]. *)
Definition help_line (COMMAND_HELP : list (string * string)) (cmd : string) : string :=
  match assoc_get COMMAND_HELP cmd with
  | Some h => "  " ++ ljust 10 cmd ++ " - " ++ h ++ nl
  | None => ""
  end.

Definition help_tip : string := "Tip: Use 'cd ..' to go up one directory level".

(** [cmd_help], the text built up by [help_text += ...]. *)
Definition cmd_help (COMMAND_HELP : list (string * string)) (args : list string)
  (s : session) : outcome * session :=
  let body :=
    fold_left
      (fun help_text category =>
         match category_cmds category with
         | [] => help_text
         | cmds =>
             let t := fold_left (fun t cmd => t ++ help_line COMMAND_HELP cmd)
                        (py_sorted cmds) (help_text ++ category ++ ":" ++ nl) in
             t ++ nl
         end)
      help_order ("Available commands:" ++ nl ++ nl) in
  match relative_to (current_dir s) (terminal_root s) with
  | inr rel => (ok (body ++ "Current directory: " ++ rel_str rel ++ nl ++ help_tip), s)
  | inl e => (Raise e, s)
  end.

(** ** The dispatcher *)

(** The names of the [cmd_*] methods of [CommandProcessor]: [getattr(self,
    f"cmd_{command}", None)] finds a handler exactly for these. *)
Definition handler_names : list string := [
  "ls"; "cd"; "pwd"; "mkdir"; "rm"; "rmdir"; "touch"; "cat"; "echo"; "clear";
  "mv"; "cp"; "ln"; "chmod"; "file"; "stat"; "head"; "tail"; "grep"; "sort";
  "uniq"; "wc"; "cut"; "whoami"; "date"; "uptime"; "uname"; "df"; "du"; "free";
  "top"; "ps"; "kill"; "killall"; "jobs"; "bg"; "fg"; "ping"; "curl"; "wget";
  "ssh"; "scp"; "tar"; "zip"; "unzip"; "history"; "alias"; "export"; "env";
  "which"; "whereis"; "help"; "man"; "info"].

Definition str_mem (x : string) (l : list string) : bool := existsb (String.eqb x) l.

Section Dispatcher.

(** [COMMANDS] and [COMMAND_HELP] come from the module [commands_list],
    which is not part of the sources: they are parameters here. *)
Variable COMMANDS : list string.
Variable COMMAND_HELP : list (string * string).

(** The handlers of the methods this file does not embed. *)
Variable other_handler : string -> handler.

Definition handler_of (command : string) : option handler :=
  if negb (str_mem command handler_names) then None
  else if String.eqb command "cd" then Some cmd_cd
  else if String.eqb command "pwd" then Some cmd_pwd
  else if String.eqb command "mkdir" then Some cmd_mkdir
  else if String.eqb command "echo" then Some cmd_echo
  else if String.eqb command "clear" then Some cmd_clear
  else if String.eqb command "grep" then Some cmd_grep
  else if String.eqb command "uniq" then Some cmd_uniq
  else if String.eqb command "help" then Some (cmd_help COMMAND_HELP)
  else Some (other_handler command).

Definition not_found_msg (command : string) : string :=
  "Command not found: " ++ command ++ ". Type 'help' for available commands.".

Definition not_implemented_msg (command : string) : string :=
  "Handler for '" ++ command ++ "' not implemented yet.".

(** [CommandProcessor.execute]. *)
Definition execute (s : session) (cmd : string) : outcome * session :=
  if String.eqb (py_strip cmd) "" then (ok "", s)
  else
    match shlex_split (py_strip cmd) with
    | inl msg => (Raise (mk_exn "ValueError" msg), s)
    | inr [] => (ok "", s)
    | inr (p :: args) =>
        let command := py_lower p in
        if negb (str_mem command COMMANDS) then (ok (not_found_msg command), s)
        else
          match handler_of command with
          | None => (ok (not_implemented_msg command), s)
          | Some h =>
              match h args s with
              | (Ret (Some result), s') => (ok result, s')
              | (Ret None, s') => (ok "", s')
              | (Raise e, s') =>
                  (ok ("Error running " ++ command ++ ": " ++ exn_msg e), s')
              end
          end
    end.

(** [run_command] of [main.py], the API layer around [execute]: the
    [output] field of its answer. *)
Definition run_command (s : session) (cmd : string) : string * session :=
  match execute s cmd with
  | (Ret (Some out), s') => (out, s')
  | (Ret None, s') => ("", s')
  | (Raise e, s') => ("Error: " ++ exn_msg e, s')
  end.

(** A sequence of commands run one after the other. *)
Fixpoint execute_all (s : session) (cmds : list string) : session :=
  match cmds with
  | [] => s
  | c :: t => execute_all (snd (execute s c)) t
  end.

End Dispatcher.

(** ** Construction of a processor *)

Definition subdirs : list string := ["home"; "documents"; "downloads"; "projects"].

(** [root.mkdir(parents=True, exist_ok=True)], then
    [(root / subdir).mkdir(exist_ok=True)] for each subdirectory; the first
    error stops it. *)
Definition create_root (fs : fsys) (root : path) : fsys * option errno :=
  fold_left
    (fun acc sd =>
       match acc with
       | (_, Some _) => acc
       | (fs0, None) => mkdir fs0 ((root ++ [sd])%list) false true
       end)
    subdirs (mkdir fs root true true).

Definition tmp_root : path := ["tmp"; "terminal_root"].

(** The choice of [terminal_root] in [__init__]; [cwd] is [Path.cwd()]. *)
Definition choose_root (fs : fsys) (cwd : path) : path :=
  if path_exists fs ["var"; "task"] then
    if path_exists fs ["var"; "task"; "terminal_root"] then ["var"; "task"; "terminal_root"]
    else tmp_root
  else if path_exists fs ["app"] then ["app"; "terminal_root"]
  else (parent cwd ++ ["terminal_root"])%list.

(** [CommandProcessor.__init__]: a fresh session starts at its root. *)
Definition new_processor (fs : fsys) (cwd : path) : session :=
  let root0 := choose_root fs cwd in
  if path_exists fs root0 then mk_session root0 root0 fs
  else
    match create_root fs root0 with
    | (fs1, None) => mk_session root0 root0 fs1
    | (fs1, Some _) => mk_session tmp_root tmp_root (fst (create_root fs1 tmp_root))
    end.

(** Modelled from the spec: the registry [COMMANDS] of [commands_list.py],
    which is not among the sources; these are the command names section
    4.3 of the specification lists. *)
Definition COMMANDS_spec : list string := [
  "ls"; "cd"; "pwd"; "mkdir"; "touch"; "rm"; "rmdir"; "mv"; "cp"; "ln";
  "cat"; "head"; "tail"; "file"; "stat"; "du"; "grep"; "sort"; "uniq"; "wc";
  "cut"; "whoami"; "date"; "uptime"; "uname"; "df"; "free"; "top"; "ps";
  "kill"; "killall"; "jobs"; "bg"; "fg"; "ping"; "curl"; "wget"; "ssh"; "scp";
  "tar"; "zip"; "unzip"; "history"; "alias"; "export"; "env"; "which";
  "whereis"; "help"; "man"; "info"].

(** Containment in the jail: [p] is [root] or below it. *)
Definition within (root p : path) : Prop := exists rel, p = (root ++ rel)%list.

(** Well-formed path components: non-empty and without ["/"]. *)
Definition wf_path (p : path) : Prop :=
  Forall (fun x => x <> "" /\ py_in "/" x = false) p.

(** The specification's reading of [uniq], to compare with [uniq_loop]: a
    line is kept exactly when it differs from the line just before it (the
    first line has none and is kept). *)
Definition uniq_spec (lines : list string) : list string :=
  map fst
    (filter (fun '(l, prev) => match prev with
                               | None => true
                               | Some q => negb (String.eqb l q)
                               end)
       (combine lines (None :: map Some lines))).

(** Concatenation of a list of strings. *)
Definition cat_all (l : list string) : string := fold_right String.append "" l.

(** Whether a list of strings is strictly increasing. *)
Fixpoint ssorted_b (l : list string) : bool :=
  match l with
  | [] => true
  | h :: t => forallb (fun x => String.ltb h x) t && ssorted_b t
  end.

(** ** More handlers of [CommandProcessor] *)

(** Exceptions whose errno has no [errno] constructor above: the class, the
    number and the [strerror] text of the [OSError]. *)
Definition os_error_n (cls : string) (num : nat) (msg : string) (p : path) : py_exn :=
  mk_exn cls ("[Errno " ++ py_str_int num ++ "] " ++ msg ++ ": '" ++ path_str p ++ "'").

Definition is_a_directory (p : path) : py_exn :=
  os_error_n "IsADirectoryError" 21 "Is a directory" p.

Definition not_empty_error (p : path) : py_exn :=
  os_error_n "OSError" 39 "Directory not empty" p.

Definition busy_error (p : path) : py_exn :=
  os_error_n "OSError" 16 "Device or resource busy" p.

(** The [OSError] of [os.symlink(src, dst)], which names both paths. *)
Definition symlink_error (e : errno) (src dst : path) : py_exn :=
  mk_exn (errno_class e)
    ("[Errno " ++ py_str_int (errno_num e) ++ "] " ++ strerror e ++ ": '"
     ++ path_str src ++ "' -> '" ++ path_str dst ++ "'").

(** The entries of [fs] other than the one stored at [q]. *)
Definition remove_entry (fs : fsys) (q : path) : fsys :=
  filter (fun e => negb (path_eqb (fst e) q)) fs.

(** [os.unlink(p)]: the parent is walked (following links), the last
    component is removed without being followed. *)
Definition os_unlink (fs : fsys) (p : path) : fsys + py_exn :=
  match p with
  | [] => inr (is_a_directory p)
  | _ =>
      let name := last p "" in
      match kstat fs (parent p) with
      | KDir d =>
          if String.eqb name ".." then inr (is_a_directory p)
          else match lookup fs ((d ++ [name])%list) with
               | None => inr (os_error ENOENT p)
               | Some NDir => inr (is_a_directory p)
               | Some _ => inl (remove_entry fs ((d ++ [name])%list))
               end
      | KFile _ => inr (os_error ENOTDIR p)
      | KNone => inr (os_error ENOENT p)
      | KErr e => inr (os_error e p)
      end
  end.

(** Whether the directory stored at [q] has an entry. *)
Definition has_children (fs : fsys) (q : path) : bool :=
  existsb (fun e => match strip_prefix q (fst e) with Some [_] => true | _ => false end) fs.

(** [os.rmdir(p)]: the last component is not followed; [/] is busy, a
    trailing [..] names a non-empty directory. *)
Definition os_rmdir (fs : fsys) (p : path) : fsys + py_exn :=
  match p with
  | [] => inr (busy_error p)
  | _ =>
      let name := last p "" in
      match kstat fs (parent p) with
      | KDir d =>
          if String.eqb name ".." then inr (not_empty_error p)
          else match lookup fs ((d ++ [name])%list) with
               | None => inr (os_error ENOENT p)
               | Some NDir =>
                   if has_children fs ((d ++ [name])%list) then inr (not_empty_error p)
                   else inl (remove_entry fs ((d ++ [name])%list))
               | Some _ => inr (os_error ENOTDIR p)
               end
      | KFile _ => inr (os_error ENOTDIR p)
      | KNone => inr (os_error ENOENT p)
      | KErr e => inr (os_error e p)
      end
  end.

(** [os.open(p, O_CREAT | O_WRONLY)]: a missing last component is created
    as an empty file, an existing file is opened as it is, and a symbolic
    link as the last component is followed (a dangling one creates its
    target).  Errors name [p0], the path given to [os.open]. *)
Fixpoint open_creat (fuel : nat) (fs : fsys) (p0 p : path) : fsys + py_exn :=
  match fuel with
  | O => inr (os_error ELOOP p0)
  | S f =>
      match p with
      | [] => inr (is_a_directory p0)
      | _ =>
          let name := last p "" in
          match kstat fs (parent p) with
          | KDir d =>
              if String.eqb name ".." then inr (is_a_directory p0)
              else match lookup fs ((d ++ [name])%list) with
                   | None => inl (((d ++ [name])%list, NFile "") :: fs)
                   | Some NDir => inr (is_a_directory p0)
                   | Some (NFile _) => inl fs
                   | Some (NLink t) => open_creat f fs p0 t
                   end
          | KFile _ => inr (os_error ENOTDIR p0)
          | KNone => inr (os_error ENOENT p0)
          | KErr e => inr (os_error e p0)
          end
      end
  end.

(** [Path.touch(exist_ok=True)]:
<<
    try:
        os.utime(self, None)
    except OSError:
        pass
    else:
        return
    fd = os.open(self, os.O_CREAT | os.O_WRONLY, mode)
    os.close(fd)
>>
    [os.utime] succeeds exactly when the path reaches an entry; times are
    not modelled. *)
Definition path_touch (fs : fsys) (p : path) : fsys + py_exn :=
  if path_exists fs p then inl fs else open_creat maxsymlinks fs p p.

(** [os.symlink(src, dst)]: [dst] must not name an entry. *)
Definition os_symlink (fs : fsys) (src dst : path) : fsys + py_exn :=
  match dst with
  | [] => inr (symlink_error EEXIST src dst)
  | _ =>
      let name := last dst "" in
      match kstat fs (parent dst) with
      | KDir d =>
          if String.eqb name ".." then inr (symlink_error EEXIST src dst)
          else match lookup fs ((d ++ [name])%list) with
               | Some _ => inr (symlink_error EEXIST src dst)
               | None => inl (((d ++ [name])%list, NLink src) :: fs)
               end
      | KFile _ => inr (symlink_error ENOTDIR src dst)
      | KNone => inr (symlink_error ENOENT src dst)
      | KErr e => inr (symlink_error e src dst)
      end
  end.

(** The names [os.listdir] returns for the real directory [d], each once. *)
Definition listdir (fs : fsys) (d : path) : list string :=
  fold_right
    (fun e acc =>
       match strip_prefix d (fst e) with
       | Some [n] =>
           if String.eqb n "" || String.eqb n "." || String.eqb n ".." || str_mem n acc
           then acc else n :: acc
       | _ => acc
       end)
    [] fs.

(** [cmd_ls]; its [except Exception] turns an error of [os.listdir] into
    a message. *)
Definition cmd_ls (args : list string) (s : session) : outcome * session :=
  let fs := host s in
  let err e := (ok ("Error listing directory: " ++ exn_msg (os_error e (current_dir s))), s) in
  match kstat fs (current_dir s) with
  | KDir d =>
      match listdir fs d with
      | [] => (ok "(empty directory)", s)
      | items =>
          (ok (py_join nl
                 (map (fun item =>
                         if path_is_dir fs (path_div (current_dir s) item)
                         then item ++ "/" else item)
                    (py_sorted items))), s)
      end
  | KFile _ => err ENOTDIR
  | KNone => err ENOENT
  | KErr e => err e
  end.

(** [cmd_rm]: only [PermissionError] is caught, which this model has no
    permissions to raise. *)
Definition cmd_rm (args : list string) (s : session) : outcome * session :=
  match args with
  | [] => (ok "rm: missing operand", s)
  | filename :: _ =>
      let target := path_div (current_dir s) filename in
      if path_is_file (host s) target then
        match os_unlink (host s) target with
        | inl fs' => (ok ("Removed file: " ++ filename), set_host s fs')
        | inr e => (Raise e, s)
        end
      else if path_is_dir (host s) target then
        (ok ("rm: " ++ filename ++ " is a directory (use rmdir or rm -r)"), s)
      else (ok ("rm: cannot remove '" ++ filename ++ "': No such file or directory"), s)
  end.

(** [cmd_rmdir]: every [OSError] of [os.rmdir] is caught. *)
Definition cmd_rmdir (args : list string) (s : session) : outcome * session :=
  match args with
  | [] => (ok "rmdir: missing operand", s)
  | dirname :: _ =>
      let target := path_div (current_dir s) dirname in
      if path_is_dir (host s) target then
        match os_rmdir (host s) target with
        | inl fs' => (ok ("Removed directory: " ++ dirname), set_host s fs')
        | inr e => (ok ("rmdir: failed to remove '" ++ dirname ++ "': " ++ exn_msg e), s)
        end
      else (ok ("rmdir: failed to remove '" ++ dirname ++ "': Not a directory"), s)
  end.

(** [cmd_touch]: only [PermissionError] is caught. *)
Definition cmd_touch (args : list string) (s : session) : outcome * session :=
  match args with
  | [] => (ok "touch: missing operand", s)
  | filename :: _ =>
      match path_touch (host s) (path_div (current_dir s) filename) with
      | inl fs' => (ok ("Created/updated file: " ++ filename), set_host s fs')
      | inr e => (Raise e, s)
      end
  end.

(** [cmd_cat]. *)
Definition cmd_cat (args : list string) (s : session) : outcome * session :=
  match args with
  | [] => (ok "Usage: cat <file>", s)
  | name :: _ => with_text s (path_div (current_dir s) name) name (fun text => text)
  end.

(** [cmd_ln]: [link_name.symlink_to(target)], every exception caught. *)
Definition cmd_ln (args : list string) (s : session) : outcome * session :=
  match args with
  | a0 :: a1 :: _ =>
      let target := path_div (current_dir s) a0 in
      let link_name := path_div (current_dir s) a1 in
      match os_symlink (host s) target link_name with
      | inl fs' => (ok ("Created symbolic link: " ++ a1 ++ " -> " ++ a0), set_host s fs')
      | inr e => (ok ("Error creating link: " ++ exn_msg e), s)
      end
  | _ => (ok "Usage: ln <target> <link_name>", s)
  end.

(** [cmd_file]. *)
Definition cmd_file (args : list string) (s : session) : outcome * session :=
  match args with
  | [] => (ok "Usage: file <filename>", s)
  | name :: _ =>
      let p := path_div (current_dir s) name in
      if path_exists (host s) p then
        if path_is_dir (host s) p then (ok (name ++ ": directory"), s)
        else if path_is_file (host s) p then (ok (name ++ ": regular file"), s)
        else (ok (name ++ ": special file"), s)
      else (ok (name ++ ": cannot open"), s)
  end.

(** [cmd_head]: [lines[:10]]. *)
Definition cmd_head (args : list string) (s : session) : outcome * session :=
  match args with
  | [] => (ok "Usage: head <file>", s)
  | name :: _ =>
      with_text s (path_div (current_dir s) name) name
        (fun text => py_join nl (firstn 10 (splitlines text)))
  end.

(** [cmd_tail]: [lines[-10:]]. *)
Definition cmd_tail (args : list string) (s : session) : outcome * session :=
  match args with
  | [] => (ok "Usage: tail <file>", s)
  | name :: _ =>
      with_text s (path_div (current_dir s) name) name
        (fun text => let lines := splitlines text in
                     py_join nl (skipn (length lines - 10) lines))
  end.

(** [cmd_sort]. *)
Definition cmd_sort (args : list string) (s : session) : outcome * session :=
  match args with
  | [] => (ok "Usage: sort <file>", s)
  | name :: _ =>
      with_text s (path_div (current_dir s) name) name
        (fun text => py_join nl (py_sorted (splitlines text)))
  end.

(** [str.split()] with no argument: the maximal runs of non-whitespace
    characters.  [split_ws_go s] is the word [s] starts with (possibly
    empty) and the words after it. *)
Fixpoint split_ws_go (s : string) : string * list string :=
  match s with
  | EmptyString => ("", [])
  | String c r =>
      let (w, ws) := split_ws_go r in
      if py_isspace c then ("", if String.eqb w "" then ws else w :: ws)
      else (String c w, ws)
  end.

Definition py_split (s : string) : list string :=
  let (w, ws) := split_ws_go s in
  if String.eqb w "" then ws else w :: ws.

(** [cmd_wc]: lines, words and characters of the text read. *)
Definition cmd_wc (args : list string) (s : session) : outcome * session :=
  match args with
  | [] => (ok "Usage: wc <file>", s)
  | name :: _ =>
      with_text s (path_div (current_dir s) name) name
        (fun content =>
           py_str_int (length (splitlines content)) ++ " "
           ++ py_str_int (length (py_split content)) ++ " "
           ++ py_str_int (String.length content) ++ " " ++ name)
  end.

(** The loop of [cmd_cut]: the first field of every line that has one. *)
Definition cut_fields (lines : list string) : list string :=
  flat_map (fun line => match py_split line with
                        | f :: _ => [f]
                        | [] => []
                        end) lines.

(** [cmd_cut]: the file is the last argument. *)
Definition cmd_cut (args : list string) (s : session) : outcome * session :=
  if Nat.ltb (length args) 2 then (ok "Usage: cut -d<delimiter> -f<field> <file>", s)
  else
    let name := last args "" in
    with_text s (path_div (current_dir s) name) name
      (fun text => py_join nl (cut_fields (splitlines text))).

(** [autocomplete] of [main.py]: the suggestions for a prefix. *)
Definition autocomplete (COMMANDS : list string) (prefix : string) : list string :=
  if String.eqb prefix "" then []
  else filter (fun c => startswith c (py_lower prefix)) COMMANDS.

(** The handlers embedded in this section, for the [other_handler] of
    [execute]; [idle_handler]'s answer stands for the remaining ones. *)
Definition more_handlers (name : string) : handler :=
  if String.eqb name "ls" then cmd_ls
  else if String.eqb name "rm" then cmd_rm
  else if String.eqb name "rmdir" then cmd_rmdir
  else if String.eqb name "touch" then cmd_touch
  else if String.eqb name "cat" then cmd_cat
  else if String.eqb name "ln" then cmd_ln
  else if String.eqb name "file" then cmd_file
  else if String.eqb name "head" then cmd_head
  else if String.eqb name "tail" then cmd_tail
  else if String.eqb name "sort" then cmd_sort
  else if String.eqb name "wc" then cmd_wc
  else if String.eqb name "cut" then cmd_cut
  else fun _ s => (Ret None, s).

(** A path component that names an entry: not empty, [.] or [..]. *)
Definition normal_name (c : string) : bool :=
  negb (String.eqb c "" || String.eqb c "." || String.eqb c "..").

(** A name that [path_div] appends as one component. *)
Definition simple_name (x : string) : bool := normal_name x && negb (has_char slash x).

(** [p], relative to [pre], is a chain of directories stored as such
    (no symbolic link on the way). *)
Fixpoint real_dirs (fs : fsys) (pre p : path) : bool :=
  match p with
  | [] => true
  | c :: r =>
      normal_name c
      && match lookup fs ((pre ++ [c])%list) with Some NDir => true | _ => false end
      && real_dirs fs ((pre ++ [c])%list) r
  end.


(** A character that [shlex.split] and [str.strip] leave alone inside a word. *)
Definition plain_char (c : ascii) : bool :=
  negb (py_isspace c) && negb (is_quote c) && negb (is_backslash c).

Fixpoint all_chars (f : ascii -> bool) (s : string) : bool :=
  match s with
  | EmptyString => true
  | String c r => f c && all_chars f r
  end.

Definition plain_word (w : string) : bool :=
  negb (String.eqb w "") && all_chars plain_char w.

(** ** Concrete configurations *)

(** A stand-in for the handlers this file does not embed. *)
Definition idle_handler : string -> handler := fun _ _ s => (Ret None, s).

(** A host with the jail [/tmp/terminal_root] and a sibling directory
    [/tmp/terminal_root2]. *)
Definition jail_fs : fsys := [
  (["tmp"], NDir); (["tmp"; "terminal_root"], NDir);
  (["tmp"; "terminal_root"; "home"], NDir);
  (["tmp"; "terminal_root"; "documents"], NDir);
  (["tmp"; "terminal_root"; "downloads"], NDir);
  (["tmp"; "terminal_root"; "projects"], NDir);
  (["tmp"; "terminal_root2"], NDir)].

(** The processor started from [/tmp/backend] on that host (no [/var/task]
    nor [/app]): its jail is [/tmp/terminal_root]. *)
Definition fresh_session : session := new_processor jail_fs ["tmp"; "backend"].

(** A session at the jail root with a file [notes] of five lines. *)
Definition notes_text : string :=
  "a" ++ nl ++ "foo 1" ++ nl ++ "b" ++ nl ++ "c" ++ nl ++ "xfooy".

Definition notes_session : session :=
  mk_session tmp_root tmp_root
    [(["tmp"], NDir); (tmp_root, NDir); ((tmp_root ++ ["notes"])%list, NFile notes_text)].

(** A session with a file [dup] whose lines are [a], [a], [b], [a]. *)
Definition dup_text : string := "a" ++ nl ++ "a" ++ nl ++ "b" ++ nl ++ "a".

Definition dup_session : session :=
  mk_session tmp_root tmp_root
    [(["tmp"], NDir); (tmp_root, NDir); ((tmp_root ++ ["dup"])%list, NFile dup_text)].


(** The number of \r\n pairs that universal newlines read as one \n. *)
Fixpoint count_crlf (s : string) : nat :=
  match s with
  | EmptyString => 0
  | String c r =>
      if Nat.eqb (nat_of_ascii c) 13 then
        match r with
        | String d r2 => if Nat.eqb (nat_of_ascii d) 10 then S (count_crlf r2) else count_crlf r
        | EmptyString => 0
        end
      else count_crlf r
  end.

(** A host for the other handlers: the jail holds a directory [docs] with a
    file [a.txt], a file [b.txt] of two lines, a link [l] to [b.txt] and an
    empty directory [empty]; the root entry is stored, so that every stored
    entry sits in a stored directory. *)
Definition work_text : string := "one two" ++ nl ++ "three".

Definition work_fs : fsys := [
  ([], NDir); (["tmp"], NDir); (tmp_root, NDir);
  ((tmp_root ++ ["docs"])%list, NDir);
  ((tmp_root ++ ["docs"; "a.txt"])%list, NFile "x");
  ((tmp_root ++ ["b.txt"])%list, NFile work_text);
  ((tmp_root ++ ["l"])%list, NLink (tmp_root ++ ["b.txt"])%list);
  ((tmp_root ++ ["empty"])%list, NDir)].

Definition work_session : session := mk_session tmp_root tmp_root work_fs.

(** The same host, with [empty] as the current directory. *)
Definition empty_session : session :=
  mk_session tmp_root (tmp_root ++ ["empty"])%list work_fs.

(** ** General lemmas *)

Lemma append_assoc_s (a b c : string) : (a ++ b) ++ c = a ++ (b ++ c).
Proof. induction a as [|x a IH]; simpl; [reflexivity | now rewrite IH]. Qed.

Lemma append_empty_r (a : string) : a ++ "" = a.
Proof. induction a as [|x a IH]; simpl; [reflexivity | now rewrite IH]. Qed.

Lemma path_eqb_eq (p q : path) : path_eqb p q = true <-> p = q.
Proof.
  revert q; induction p as [|a p IH]; intros [|b q]; simpl; split; intro H;
    try discriminate; try reflexivity.
  - apply andb_prop in H as [H1 H2]. apply String.eqb_eq in H1.
    apply IH in H2. now subst.
  - injection H as -> ->. rewrite String.eqb_refl. simpl. now apply IH.
Qed.

Lemma strip_prefix_app (root rel : path) : strip_prefix root ((root ++ rel)%list) = Some rel.
Proof.
  induction root as [|a root IH]; simpl; [reflexivity|].
  now rewrite String.eqb_refl.
Qed.

Lemma relative_to_app (root rel : path) : relative_to ((root ++ rel)%list) root = inr rel.
Proof. unfold relative_to. now rewrite strip_prefix_app. Qed.

Lemma path_eqb_app_nonempty (root rel : path) :
  rel <> [] -> path_eqb ((root ++ rel)%list) root = false.
Proof.
  intro Hrel. destruct (path_eqb ((root ++ rel)%list) root) eqn:E; [|reflexivity].
  apply path_eqb_eq in E.
  assert (Hl := f_equal (@length string) E). rewrite length_app in Hl.
  destruct rel; [congruence | simpl in Hl; lia].
Qed.

(** [split_on] inverts [String.concat] on components free of the
    separator. *)
Lemma split_on_no_char (c : ascii) (s : string) :
  has_char c s = false -> split_on c s = [s].
Proof.
  induction s as [|x s IH]; simpl; [reflexivity|].
  intro H. apply orb_false_elim in H as [H1 H2]. rewrite H1, (IH H2). reflexivity.
Qed.

Lemma split_on_app (c : ascii) (a b : string) :
  has_char c a = false -> split_on c (a ++ String c b) = a :: split_on c b.
Proof.
  induction a as [|x a IH]; simpl; intro H.
  - now rewrite Ascii.eqb_refl.
  - apply orb_false_elim in H as [H1 H2]. rewrite H1, (IH H2). reflexivity.
Qed.

Lemma split_on_concat (c : ascii) (l : list string) :
  l <> [] -> Forall (fun x => has_char c x = false) l ->
  split_on c (String.concat (String c "") l) = l.
Proof.
  induction l as [|x l IH]; intros Hne Hf; [congruence|].
  inversion Hf as [|? ? Hx Hl]; subst.
  destruct l as [|y l].
  - simpl. now apply split_on_no_char.
  - change (String.concat (String c "") (x :: y :: l))
      with (x ++ String c "" ++ String.concat (String c "") (y :: l)).
    simpl. rewrite split_on_app by assumption. f_equal. apply IH; [discriminate|assumption].
Qed.

Lemma py_in_slash_has_char (x : string) : py_in "/" x = false -> has_char slash x = false.
Proof.
  induction x as [|a x IH]; simpl; [reflexivity|].
  intro H. apply orb_false_elim in H as [H1 H2].
  rewrite (IH H2), orb_false_r.
  destruct (Ascii.eqb a slash) eqn:E; [|reflexivity].
  apply Ascii.eqb_eq in E. subst. cbn in H1. discriminate H1.
Qed.

Lemma path_str_inj (p q : path) :
  wf_path p -> wf_path q -> path_str p = path_str q -> p = q.
Proof.
  unfold path_str, py_join. intros Hp Hq H. injection H as H.
  assert (Hsplit : forall r, wf_path r ->
            split_on slash (String.concat "/" r) = match r with [] => [""] | _ => r end).
  { intros [|x r] Hr; [reflexivity|].
    apply split_on_concat; [discriminate|].
    eapply Forall_impl; [|exact Hr]. intros y [_ Hy]. now apply py_in_slash_has_char. }
  pose proof (Hsplit p Hp) as E1. pose proof (Hsplit q Hq) as E2.
  rewrite H in E1. rewrite E1 in E2.
  destruct p as [|x p], q as [|y q]; try reflexivity; try assumption.
  - destruct (Forall_inv Hq) as [Hy _]. injection E2 as Ey _.
    exfalso. apply Hy. symmetry. exact Ey.
  - destruct (Forall_inv Hp) as [Hx _]. injection E2 as Ex _.
    exfalso. apply Hx. exact Ex.
Qed.

(** ** The dispatcher *)

Lemma shlex_split_empty : shlex_split "" = inr [].
Proof. reflexivity. Qed.

Lemma execute_nonblank (COMMANDS : list string) CH oh s cmd p args :
  shlex_split (py_strip cmd) = inr (p :: args) ->
  execute COMMANDS CH oh s cmd =
  (let command := py_lower p in
   if negb (str_mem command COMMANDS) then (ok (not_found_msg command), s)
   else
     match handler_of CH oh command with
     | None => (ok (not_implemented_msg command), s)
     | Some h =>
         match h args s with
         | (Ret (Some result), s') => (ok result, s')
         | (Ret None, s') => (ok "", s')
         | (Raise e, s') => (ok ("Error running " ++ command ++ ": " ++ exn_msg e), s')
         end
     end).
Proof.
  intro Hs. unfold execute.
  destruct (String.eqb (py_strip cmd) "") eqn:E.
  - apply String.eqb_eq in E. rewrite E in Hs. discriminate Hs.
  - rewrite Hs. reflexivity.
Qed.

Lemma execute_handler (COMMANDS : list string) CH oh s cmd p args h :
  shlex_split (py_strip cmd) = inr (p :: args) ->
  str_mem (py_lower p) COMMANDS = true ->
  handler_of CH oh (py_lower p) = Some h ->
  execute COMMANDS CH oh s cmd =
  match h args s with
  | (Ret (Some result), s') => (ok result, s')
  | (Ret None, s') => (ok "", s')
  | (Raise e, s') => (ok ("Error running " ++ py_lower p ++ ": " ++ exn_msg e), s')
  end.
Proof.
  intros Hs Hm Hh. rewrite (execute_nonblank _ _ _ _ _ _ _ Hs). cbv zeta.
  rewrite Hm, Hh. reflexivity.
Qed.

(** ** [cd] and [pwd] *)

Lemma cd_dotdot_at_root (s : session) (args : list string) :
  current_dir s = terminal_root s ->
  cmd_cd (".." :: args) s =
  (ok ("Changed to parent directory: " ++ path_str (terminal_root s)), s).
Proof.
  intro H. unfold cmd_cd. simpl.
  assert (E : path_eqb (current_dir s) (terminal_root s) = true)
    by (apply path_eqb_eq; exact H).
  rewrite E. simpl. rewrite H. reflexivity.
Qed.

Lemma cd_dotdot_below_root (s : session) (rel : path) (args : list string) :
  current_dir s = (terminal_root s ++ rel)%list -> rel <> [] ->
  cmd_cd (".." :: args) s =
  (ok ("Changed to parent directory: " ++ path_str (parent (current_dir s))),
   set_current_dir s (parent (current_dir s))).
Proof.
  intros H Hrel. unfold cmd_cd. simpl.
  rewrite H, path_eqb_app_nonempty by exact Hrel. reflexivity.
Qed.

Lemma execute_cd_dotdot (COMMANDS : list string) CH oh s :
  str_mem "cd" COMMANDS = true ->
  execute COMMANDS CH oh s "cd .." =
  match cmd_cd [".."] s with
  | (Ret (Some result), s') => (ok result, s')
  | (Ret None, s') => (ok "", s')
  | (Raise e, s') => (ok ("Error running cd: " ++ exn_msg e), s')
  end.
Proof.
  intro Hm. apply (execute_handler _ _ _ _ _ "cd" [".."]); [reflexivity|exact Hm|reflexivity].
Qed.

(** C10: at the jail root [pwd] prints exactly ["."]; below it, the path of
    the current directory relative to the jail root. *)
Theorem pwd_relative_to_jail (s : session) (rel : path) (args : list string) :
  current_dir s = (terminal_root s ++ rel)%list ->
  cmd_pwd args s = (ok (rel_str rel), s) /\
  (rel = [] -> cmd_pwd args s = (ok ".", s)).
Proof.
  intro H. unfold cmd_pwd. rewrite H, relative_to_app.
  split; [reflexivity|]. intros ->. reflexivity.
Qed.

Lemma pwd_relative_to_jail_witness :
  cmd_pwd [] (mk_session tmp_root (tmp_root ++ ["home"; "notes"])%list [])
  = (ok "home/notes", mk_session tmp_root (tmp_root ++ ["home"; "notes"])%list [])
  /\ cmd_pwd [] (mk_session tmp_root tmp_root []) = (ok ".", mk_session tmp_root tmp_root []).
Proof.
  split.
  - exact (proj1 (pwd_relative_to_jail
                    (mk_session tmp_root (tmp_root ++ ["home"; "notes"])%list [])
                    ["home"; "notes"] [] eq_refl)).
  - exact (proj2 (pwd_relative_to_jail (mk_session tmp_root tmp_root []) [] [] eq_refl)
                 eq_refl).
Defined.

(** C5: with [cd] registered, [cd ..] at the jail root answers without an
    error and leaves the session as it is, so any number of [cd ..] keeps
    [currentDir] at the jail root; below the root it moves to the parent. *)
Theorem cd_dotdot_clamps (COMMANDS : list string) CH oh (s : session) (n : nat) :
  str_mem "cd" COMMANDS = true ->
  (current_dir s = terminal_root s ->
     execute COMMANDS CH oh s "cd .." =
       (ok ("Changed to parent directory: " ++ path_str (terminal_root s)), s)
     /\ current_dir (execute_all COMMANDS CH oh s (repeat "cd .." n)) = terminal_root s) /\
  (forall rel, current_dir s = (terminal_root s ++ rel)%list -> rel <> [] ->
     execute COMMANDS CH oh s "cd .." =
       (ok ("Changed to parent directory: " ++ path_str (parent (current_dir s))),
        set_current_dir s (parent (current_dir s)))).
Proof.
  intro Hm. split.
  - intro Hroot.
    assert (Step : forall s0, current_dir s0 = terminal_root s0 ->
              execute COMMANDS CH oh s0 "cd .." =
              (ok ("Changed to parent directory: " ++ path_str (terminal_root s0)), s0)).
    { intros s0 H0. rewrite (execute_cd_dotdot _ _ _ _ Hm).
      now rewrite (cd_dotdot_at_root s0 [] H0). }
    split; [now apply Step|].
    induction n as [|n IH]; simpl; [exact Hroot|].
    rewrite (Step s Hroot). exact IH.
  - intros rel H Hrel. rewrite (execute_cd_dotdot _ _ _ _ Hm).
    now rewrite (cd_dotdot_below_root s rel [] H Hrel).
Qed.

Lemma cd_dotdot_clamps_witness :
  str_mem "cd" COMMANDS_spec = true /\
  current_dir (execute_all COMMANDS_spec [] idle_handler fresh_session (repeat "cd .." 3))
  = tmp_root.
Proof.
  split; [reflexivity|].
  exact (proj2 (proj1 (cd_dotdot_clamps COMMANDS_spec [] idle_handler fresh_session 3
                         eq_refl) eq_refl)).
Defined.

Lemma append_inv_l (a b c : string) : a ++ b = a ++ c -> b = c.
Proof. induction a as [|x a IH]; simpl; intro H; [exact H | injection H; exact IH]. Qed.

Lemma ok_prefix_inj (a b c : string) : ok (a ++ b) = ok (a ++ c) -> b = c.
Proof. intro E. injection E as E. exact (append_inv_l _ _ _ E). Qed.

Lemma Forall_removelast {A : Type} (P : A -> Prop) (l : list A) :
  Forall P l -> Forall P (removelast l).
Proof.
  induction l as [|x l IH]; intro H; [constructor|].
  inversion H as [|? ? Hx Hl]; subst. destruct l as [|y l]; [constructor|].
  simpl. constructor; [exact Hx | exact (IH Hl)].
Qed.

Lemma wf_path_app (p q : path) : wf_path p -> wf_path q -> wf_path (p ++ q)%list.
Proof. intros Hp Hq. apply Forall_app. now split. Qed.

Lemma cd_dotdot_output (s : session) :
  fst (cmd_cd [".."] s)
  = ok ("Changed to parent directory: " ++ path_str (current_dir (snd (cmd_cd [".."] s)))).
Proof. unfold cmd_cd. simpl. destruct (negb (path_eqb _ _)); reflexivity. Qed.

Lemma cd_dotdot_target (r rel : path) (fs : fsys) :
  current_dir (snd (cmd_cd [".."] (mk_session r (r ++ rel)%list fs)))
  = (r ++ removelast rel)%list.
Proof.
  destruct rel as [|x rel].
  - rewrite cd_dotdot_at_root by (simpl; apply app_nil_r). simpl. now rewrite app_nil_r.
  - rewrite (cd_dotdot_below_root _ (x :: rel)) by (reflexivity || discriminate).
    simpl. unfold parent. rewrite removelast_app by discriminate. reflexivity.
Qed.

(** C9: the answers of [cd], [cd ~] and [cd ..] print the absolute host path
    of the new current directory, so two sessions that differ only in where
    their jail root lies on the host get different answers. *)
Theorem cd_output_reveals_host_root (r1 r2 rel : path) (fs1 fs2 : fsys) :
  wf_path r1 -> wf_path r2 -> wf_path rel -> r1 <> r2 ->
  let s1 := mk_session r1 (r1 ++ rel)%list fs1 in
  let s2 := mk_session r2 (r2 ++ rel)%list fs2 in
  fst (cmd_cd [] s1) = ok ("Changed to home directory: " ++ path_str (r1 ++ ["home"])%list) /\
  fst (cmd_cd ["~"] s1) = ok ("Changed to home directory: " ++ path_str (r1 ++ ["home"])%list) /\
  fst (cmd_cd [".."] s1)
    = ok ("Changed to parent directory: " ++ path_str (current_dir (snd (cmd_cd [".."] s1)))) /\
  fst (cmd_cd [] s1) <> fst (cmd_cd [] s2) /\
  fst (cmd_cd ["~"] s1) <> fst (cmd_cd ["~"] s2) /\
  fst (cmd_cd [".."] s1) <> fst (cmd_cd [".."] s2).
Proof.
  intros W1 W2 Wr Hne s1 s2.
  assert (Whome : wf_path ["home"]) by (repeat constructor; discriminate).
  assert (Home : path_str (r1 ++ ["home"])%list <> path_str (r2 ++ ["home"])%list).
  { intro E. apply path_str_inj in E; try (apply wf_path_app; assumption).
    apply app_inv_tail in E. contradiction. }
  assert (Up : path_str (r1 ++ removelast rel)%list <> path_str (r2 ++ removelast rel)%list).
  { intro E. apply path_str_inj in E;
      try (apply wf_path_app; [assumption | apply Forall_removelast; assumption]).
    apply app_inv_tail in E. contradiction. }
  pose proof (cd_dotdot_target r1 rel fs1) as T1.
  pose proof (cd_dotdot_target r2 rel fs2) as T2.
  split; [reflexivity|]. split; [reflexivity|]. split.
  { apply cd_dotdot_output. }
  split; [|split].
  - intro E. exact (Home (ok_prefix_inj _ _ _ E)).
  - intro E. exact (Home (ok_prefix_inj _ _ _ E)).
  - subst s1 s2. intro E.
    assert (G : forall r fs, fst (cmd_cd [".."] (mk_session r (r ++ rel)%list fs))
                  = ok ("Changed to parent directory: " ++ path_str (r ++ removelast rel)%list)).
    { intros r fs. now rewrite cd_dotdot_output, cd_dotdot_target. }
    rewrite G, G in E. exact (Up (ok_prefix_inj _ _ _ E)).
Qed.

Lemma cd_output_reveals_host_root_witness :
  fst (cmd_cd [] (mk_session ["srv"; "a"] ["srv"; "a"] []))
  <> fst (cmd_cd [] (mk_session ["srv"; "b"] ["srv"; "b"] [])).
Proof.
  pose proof (cd_output_reveals_host_root ["srv"; "a"] ["srv"; "b"] [] [] []) as T.
  simpl in T.
  refine (proj1 (proj2 (proj2 (proj2 (T _ _ _ _))))).
  - repeat constructor; discriminate.
  - repeat constructor; discriminate.
  - constructor.
  - discriminate.
Defined.

(** C4: an unknown command name answers the "Command not found" text, a
    registered name without a [cmd_*] method the "not implemented" text;
    the name is the lowercased first token. *)
Theorem execute_missing_command_messages (COMMANDS : list string) CH oh s cmd p args :
  shlex_split (py_strip cmd) = inr (p :: args) ->
  (str_mem (py_lower p) COMMANDS = false ->
     execute COMMANDS CH oh s cmd =
       (ok ("Command not found: " ++ py_lower p ++ ". Type 'help' for available commands."), s))
  /\
  (str_mem (py_lower p) COMMANDS = true -> str_mem (py_lower p) handler_names = false ->
     execute COMMANDS CH oh s cmd =
       (ok ("Handler for '" ++ py_lower p ++ "' not implemented yet."), s)).
Proof.
  intro Hs. rewrite (execute_nonblank _ _ _ _ _ _ _ Hs). cbv zeta. split.
  - intro Hm. rewrite Hm. reflexivity.
  - intros Hm Hn. rewrite Hm. simpl. unfold handler_of. rewrite Hn. reflexivity.
Qed.

Lemma execute_missing_command_messages_witness :
  execute COMMANDS_spec [] idle_handler fresh_session "XYZZY"
    = (ok "Command not found: xyzzy. Type 'help' for available commands.", fresh_session)
  /\ execute ("chown" :: COMMANDS_spec) [] idle_handler fresh_session "chown a b"
    = (ok "Handler for 'chown' not implemented yet.", fresh_session).
Proof.
  split.
  - exact (proj1 (execute_missing_command_messages COMMANDS_spec [] idle_handler
                    fresh_session "XYZZY" "XYZZY" [] eq_refl) eq_refl).
  - exact (proj2 (execute_missing_command_messages ("chown" :: COMMANDS_spec) []
                    idle_handler fresh_session "chown a b" "chown" ["a"; "b"] eq_refl)
                 eq_refl eq_refl).
Defined.

(** ** Malformed quoting *)

Lemma shlex_loop_errors (s : string) m tok quoted acc msg :
  shlex_loop s m tok quoted acc = inl msg -> msg = err_no_closing \/ msg = err_no_escaped.
Proof.
  revert m tok quoted acc. induction s as [|c s IH]; intros m tok quoted acc H.
  - destruct m; simpl in H; try discriminate; injection H as <-; auto.
  - destruct m; simpl in H;
      repeat match goal with
             | H : context [if ?b then _ else _] |- _ => destruct b
             end; eauto.
Qed.

(** The counterexample of C2: an unclosed quote makes [execute] raise the
    [ValueError] of [shlex.split]. *)
Lemma execute_raises_on_unclosed_quote :
  execute COMMANDS_spec [] idle_handler fresh_session ("echo " ++ String (ascii_of_nat 34) "abc")
  = (Raise (mk_exn "ValueError" "No closing quotation"), fresh_session).
Proof. reflexivity. Qed.

(** C2 (amended): [execute] answers a string for every input except
    malformed quoting: blank input answers [""], a handler's exception
    becomes ["Error running <name>: <message>"]; the [ValueError] of
    [shlex.split] on an unclosed quote or a trailing backslash leaves
    [execute] with the session unchanged and is turned into the text
    ["Error: <message>"] by the API layer [run_command]. *)
Theorem execute_raises_only_on_quoting (COMMANDS : list string) CH oh s cmd :
  (py_strip cmd = "" -> execute COMMANDS CH oh s cmd = (ok "", s)) /\
  (forall e s', execute COMMANDS CH oh s cmd = (Raise e, s') ->
     s' = s /\ shlex_split (py_strip cmd) = inl (exn_msg e) /\
     exn_type e = "ValueError" /\
     (exn_msg e = err_no_closing \/ exn_msg e = err_no_escaped) /\
     run_command COMMANDS CH oh s cmd = ("Error: " ++ exn_msg e, s)) /\
  (forall msg, shlex_split (py_strip cmd) = inl msg ->
     execute COMMANDS CH oh s cmd = (Raise (mk_exn "ValueError" msg), s)) /\
  (forall r s', execute COMMANDS CH oh s cmd = (Ret r, s') -> r <> None) /\
  (forall p args h e s', shlex_split (py_strip cmd) = inr (p :: args) ->
     str_mem (py_lower p) COMMANDS = true -> handler_of CH oh (py_lower p) = Some h ->
     h args s = (Raise e, s') ->
     execute COMMANDS CH oh s cmd =
       (ok ("Error running " ++ py_lower p ++ ": " ++ exn_msg e), s')).
Proof.
  assert (Err : forall msg, shlex_split (py_strip cmd) = inl msg ->
            execute COMMANDS CH oh s cmd = (Raise (mk_exn "ValueError" msg), s)).
  { intros msg Hs. unfold execute.
    destruct (String.eqb (py_strip cmd) "") eqn:E.
    - apply String.eqb_eq in E. rewrite E in Hs. discriminate Hs.
    - rewrite Hs. reflexivity. }
  split; [|split; [|split; [exact Err|split]]].
  - intro H. unfold execute. rewrite H. reflexivity.
  - intros e s' H. destruct (shlex_split (py_strip cmd)) as [msg|toks] eqn:Hs.
    + rewrite (Err msg eq_refl) in H. injection H as <- <-. simpl.
      split; [reflexivity|]. split; [reflexivity|]. split; [reflexivity|].
      split; [exact (shlex_loop_errors _ _ _ _ _ _ Hs)|].
      unfold run_command. rewrite (Err msg eq_refl). reflexivity.
    + exfalso. revert H. unfold execute. rewrite Hs.
      destruct (String.eqb (py_strip cmd) ""); [discriminate|].
      destruct toks as [|p args]; [discriminate|].
      destruct (negb (str_mem (py_lower p) COMMANDS)); [discriminate|].
      destruct (handler_of CH oh (py_lower p)) as [h|]; [|discriminate].
      destruct (h args s) as [[[r0|]|e0] s0]; discriminate.
  - intros r s' H. revert H. unfold execute.
    destruct (String.eqb (py_strip cmd) ""); [intro H; injection H as <- _; discriminate|].
    destruct (shlex_split (py_strip cmd)) as [msg|[|p args]]; [discriminate| |].
    + intro H; injection H as <- _; discriminate.
    + destruct (negb (str_mem (py_lower p) COMMANDS));
        [intro H; injection H as <- _; discriminate|].
      destruct (handler_of CH oh (py_lower p)) as [h|];
        [|intro H; injection H as <- _; discriminate].
      destruct (h args s) as [[[r0|]|e0] s0]; intro H; injection H as <- _; discriminate.
  - intros p args h e s' Hs Hm Hh He.
    rewrite (execute_handler _ _ _ _ _ _ _ _ Hs Hm Hh), He. reflexivity.
Qed.

(** ** Containment of [cd] and of the creation commands *)

Lemma not_within_tmp (x : string) :
  x <> "terminal_root" -> ~ within tmp_root ["tmp"; x].
Proof.
  intros Hx [rel Hrel]. unfold tmp_root in Hrel. simpl in Hrel.
  injection Hrel as Hx' _. exact (Hx Hx').
Qed.

(** C1 at the failing input: the containment test of [cmd_cd] is a string
    prefix test without the separator, so from a fresh session
    [cd ../terminal_root2] commits the sibling directory
    [/tmp/terminal_root2]; a test against [jailRoot + "/"] rejects it. *)
Lemma cd_commits_sibling_of_jail :
  let s := snd (execute COMMANDS_spec [] idle_handler fresh_session "cd ../terminal_root2") in
  terminal_root s = tmp_root /\
  current_dir s = ["tmp"; "terminal_root2"] /\
  ~ within (terminal_root s) (current_dir s) /\
  startswith (path_str ["tmp"; "terminal_root2"]) (path_str tmp_root) = true /\
  startswith (path_str ["tmp"; "terminal_root2"]) (path_str tmp_root ++ "/") = false.
Proof.
  cbv zeta.
  assert (E : snd (execute COMMANDS_spec [] idle_handler fresh_session "cd ../terminal_root2")
              = mk_session tmp_root ["tmp"; "terminal_root2"] jail_fs) by reflexivity.
  rewrite E. simpl. split; [reflexivity|]. split; [reflexivity|]. split.
  - apply not_within_tmp. discriminate.
  - split; reflexivity.
Qed.

(** C3 at the failing input: [mkdir] joins its argument to the current
    directory with no containment test, so from a fresh session
    [mkdir ../outside] creates the host directory [/tmp/outside]. *)
Lemma mkdir_creates_outside_jail :
  let s' := snd (execute COMMANDS_spec [] idle_handler fresh_session "mkdir ../outside") in
  lookup (host fresh_session) ["tmp"; "outside"] = None /\
  lookup (host s') ["tmp"; "outside"] = Some NDir /\
  ~ within (terminal_root s') ["tmp"; "outside"].
Proof.
  cbv zeta. split; [reflexivity|]. split; [reflexivity|].
  assert (E : terminal_root (snd (execute COMMANDS_spec [] idle_handler fresh_session
                                   "mkdir ../outside")) = tmp_root) by reflexivity.
  rewrite E. apply not_within_tmp. discriminate.
Qed.

(** ** Text handlers *)

Lemma startswith_spec (s p : string) : startswith s p = true <-> exists b, s = p ++ b.
Proof.
  revert s. induction p as [|a p IH]; intros [|x s]; simpl.
  - split; [intros _; now exists ""|reflexivity].
  - split; [intros _; now exists (String x s)|reflexivity].
  - split; [discriminate|intros [b Hb]; discriminate].
  - rewrite andb_true_iff, Ascii.eqb_eq, IH. split.
    + intros [-> [b ->]]. now exists b.
    + intros [b Hb]. injection Hb as -> Hb. split; [reflexivity|]. now exists b.
Qed.

(** [pattern in line] is plain substring search. *)
Lemma py_in_spec (p s : string) : py_in p s = true <-> exists a b, s = a ++ p ++ b.
Proof.
  induction s as [|x s IH]; simpl; rewrite orb_true_iff, startswith_spec.
  - split.
    + intros [[b Hb]|H]; [|discriminate]. exists "", b. exact Hb.
    + intros [a [b H]]. left. exists b. destruct a; [exact H|discriminate].
  - rewrite IH. split.
    + intros [[b Hb]|[a [b Hab]]].
      * exists "", b. exact Hb.
      * exists (String x a), b. now rewrite Hab.
    + intros [a [b H]]. destruct a as [|y a].
      * left. exists b. exact H.
      * right. injection H as -> H. now exists a, b.
Qed.

Lemma read_file_text (fs : fsys) (p : path) (c : string) :
  read_file fs p = Some c ->
  path_is_file fs p = true /\ read_text fs p = Some (universal_newlines c).
Proof.
  unfold read_text, path_is_file, read_file. intro H.
  destruct (kstat fs p); try discriminate. rewrite H. now split.
Qed.

Lemma with_text_file (s : session) (p : path) (name : string) k (c : string) :
  read_file (host s) p = Some c -> with_text s p name k = (ok (k (universal_newlines c)), s).
Proof.
  intro H. destruct (read_file_text _ _ _ H) as [H1 H2].
  unfold with_text. now rewrite H1, H2.
Qed.

(** Numbered lines, numbering from [k], and the ones a test keeps. *)
Lemma grep_matches_filter (pattern : string) (k : nat) (lines : list string) :
  grep_matches pattern k lines =
  map (fun '(i, l) => py_str_int i ++ ":" ++ l)
    (filter (fun e => py_in pattern (snd e)) (combine (seq (S k) (length lines)) lines)).
Proof.
  revert k. induction lines as [|line t IH]; intro k; [reflexivity|].
  simpl. rewrite (IH (S k)). destruct (py_in pattern line); reflexivity.
Qed.

Lemma in_numbered_filter (f : nat * string -> bool) (k : nat) (L : list string) i l :
  In (i, l) (filter f (combine (seq k (length L)) L)) <->
  k <= i /\ nth_error L (i - k) = Some l /\ f (i, l) = true.
Proof.
  revert k. induction L as [|x L IH]; intro k; simpl.
  - split; [tauto|]. intros [Hk [H _]]. destruct (i - k); discriminate.
  - destruct (f (k, x)) eqn:Ef; simpl; rewrite IH.
    + split.
      * intros [E|[Hk [Hn Hf]]].
        -- injection E as <- <-. rewrite Nat.sub_diag. auto.
        -- split; [lia|]. replace (i - k) with (S (i - S k)) by lia. auto.
      * intros [Hk [Hn Hf]]. destruct (Nat.eq_dec i k) as [->|Hne].
        -- left. rewrite Nat.sub_diag in Hn. injection Hn as ->. reflexivity.
        -- right. replace (i - k) with (S (i - S k)) in Hn by lia. split; [lia|auto].
    + split.
      * intros [Hk [Hn Hf]]. split; [lia|]. replace (i - k) with (S (i - S k)) by lia. auto.
      * intros [Hk [Hn Hf]]. destruct (Nat.eq_dec i k) as [->|Hne].
        -- rewrite Nat.sub_diag in Hn. injection Hn as ->. congruence.
        -- replace (i - k) with (S (i - S k)) in Hn by lia. split; [lia|auto].
Qed.

Lemma numbered_filter_sorted (f : nat * string -> bool) (k : nat) (L : list string) :
  StronglySorted lt (map fst (filter f (combine (seq k (length L)) L))) /\
  Forall (fun j => k <= j) (map fst (filter f (combine (seq k (length L)) L))).
Proof.
  revert k. induction L as [|x L IH]; intro k; simpl; [split; constructor|].
  destruct (IH (S k)) as [Hs Hf].
  destruct (f (k, x)); simpl.
  - split.
    + constructor; [exact Hs|]. eapply Forall_impl; [|exact Hf]. simpl. lia.
    + constructor; [lia|]. eapply Forall_impl; [|exact Hf]. simpl. lia.
  - split; [exact Hs|]. eapply Forall_impl; [|exact Hf]. simpl. lia.
Qed.

(** C6: [grep] tests each line of the file for the pattern as a plain
    substring and answers ["<i>:<line>"] for the matching lines in
    increasing 1-based order, joined by newlines, or ["(no matches)"]. *)
Theorem grep_substring_lines (pattern name : string) (rest : list string) (s : session)
  (c : string) :
  read_file (host s) (path_div (current_dir s) name) = Some c ->
  let lines := splitlines (universal_newlines c) in
  exists M : list (nat * string),
    (forall i l, In (i, l) M <->
       1 <= i /\ nth_error lines (i - 1) = Some l /\ exists a b, l = a ++ pattern ++ b) /\
    StronglySorted lt (map fst M) /\
    cmd_grep (pattern :: name :: rest) s =
      (ok (match M with
           | [] => "(no matches)"
           | _ => py_join nl (map (fun '(i, l) => py_str_int i ++ ":" ++ l) M)
           end), s).
Proof.
  intros H lines.
  exists (filter (fun e => py_in pattern (snd e)) (combine (seq 1 (length lines)) lines)).
  split; [|split].
  - intros i l. rewrite in_numbered_filter. simpl. now rewrite py_in_spec.
  - apply numbered_filter_sorted.
  - unfold cmd_grep. rewrite (with_text_file _ _ _ _ _ H). fold lines.
    rewrite grep_matches_filter.
    destruct (filter _ _) as [|[i l] M]; reflexivity.
Qed.

Lemma grep_substring_lines_witness :
  exists M : list (nat * string),
    StronglySorted lt (map fst M) /\
    cmd_grep ["foo"; "notes"] notes_session =
      (ok (match M with
           | [] => "(no matches)"
           | _ => py_join nl (map (fun '(i, l) => py_str_int i ++ ":" ++ l) M)
           end), notes_session).
Proof.
  destruct (grep_substring_lines "foo" "notes" [] notes_session notes_text eq_refl)
    as [M [_ [HS HG]]].
  exists M. split; assumption.
Defined.

Example grep_notes :
  cmd_grep ["foo"; "notes"] notes_session = (ok ("2:foo 1" ++ nl ++ "5:xfooy"), notes_session).
Proof. reflexivity. Qed.

Lemma uniq_loop_spec (prev : option string) (lines : list string) :
  uniq_loop prev lines =
  map fst
    (filter (fun '(l, p) => match p with
                            | None => true
                            | Some q => negb (String.eqb l q)
                            end)
       (combine lines (prev :: map Some lines))).
Proof.
  revert prev. induction lines as [|l t IH]; intro prev; [reflexivity|].
  simpl. destruct prev as [q|].
  - destruct (String.eqb l q) eqn:E; simpl.
    + apply String.eqb_eq in E. subst q. apply IH.
    + f_equal. apply IH.
  - simpl. f_equal. apply IH.
Qed.

(** C7: [uniq] keeps a line exactly when it differs from the line just
    before it, i.e. it drops adjacent duplicates only. *)
Theorem uniq_adjacent_only (name : string) (rest : list string) (s : session) (c : string) :
  read_file (host s) (path_div (current_dir s) name) = Some c ->
  cmd_uniq (name :: rest) s = (ok (py_join nl (uniq_spec (splitlines (universal_newlines c)))), s).
Proof.
  intro H. unfold cmd_uniq. rewrite (with_text_file _ _ _ _ _ H).
  unfold uniq_spec. now rewrite uniq_loop_spec.
Qed.

(** On the lines [a], [a], [b], [a] the answer is [a], [b], [a]. *)
Lemma uniq_adjacent_only_witness :
  cmd_uniq ["dup"] dup_session = (ok ("a" ++ nl ++ "b" ++ nl ++ "a"), dup_session).
Proof.
  rewrite (uniq_adjacent_only "dup" [] dup_session dup_text eq_refl). reflexivity.
Defined.

(** ** [help] *)

Lemma fold_left_append (f : string -> string) (l : list string) (init : string) :
  fold_left (fun t x => t ++ f x) l init = init ++ cat_all (map f l).
Proof.
  revert init. induction l as [|x l IH]; intro init; simpl.
  - now rewrite append_empty_r.
  - rewrite IH. now rewrite append_assoc_s.
Qed.

Lemma fold_left_ext_in {A B : Type} (f g : A -> B -> A) (l : list B) (a : A) :
  (forall x y, In y l -> f x y = g x y) -> fold_left f l a = fold_left g l a.
Proof.
  revert a. induction l as [|y l IH]; intros a H; simpl; [reflexivity|].
  rewrite (H a y (or_introl eq_refl)). apply IH. intros x z Hz. apply H. now right.
Qed.

Lemma insert_sorted_perm (x : string) (l : list string) : Permutation (insert_sorted x l) (x :: l).
Proof.
  induction l as [|h t IH]; simpl; [reflexivity|].
  destruct (String.leb x h); [reflexivity|].
  rewrite IH. apply perm_swap.
Qed.

Lemma py_sorted_perm (l : list string) : Permutation (py_sorted l) l.
Proof.
  induction l as [|h t IH]; simpl; [reflexivity|].
  rewrite insert_sorted_perm. now apply perm_skip.
Qed.

Lemma ssorted_b_sound (l : list string) :
  ssorted_b l = true -> StronglySorted (fun a b => String.ltb a b = true) l.
Proof.
  induction l as [|h t IH]; simpl; intro H; [constructor|].
  apply andb_prop in H as [H1 H2]. constructor; [exact (IH H2)|].
  apply Forall_forall. intros x Hx. rewrite forallb_forall in H1. exact (H1 x Hx).
Qed.

Lemma StronglySorted_filter {A : Type} (R : A -> A -> Prop) (f : A -> bool) (l : list A) :
  StronglySorted R l -> StronglySorted R (filter f l).
Proof.
  induction l as [|x l IH]; intro H; simpl; [constructor|].
  inversion H as [|? ? Hl Hx]; subst.
  destruct (f x); [|exact (IH Hl)].
  constructor; [exact (IH Hl)|].
  apply Forall_forall. intros y Hy. apply filter_In in Hy as [Hy _].
  exact (proj1 (Forall_forall _ _) Hx y Hy).
Qed.

Lemma in_combine_map {A B : Type} (g : A -> B) (l : list A) a b :
  In (a, b) (combine l (map g l)) -> b = g a /\ In a l.
Proof.
  induction l as [|x l IH]; simpl; [tauto|].
  intros [E|H]; [injection E as -> <-; auto|].
  destruct (IH H) as [-> Ha]. auto.
Qed.

Lemma help_line_filter (CH : list (string * string)) (l : list string) :
  cat_all (map (help_line CH) l) =
  cat_all (map (help_line CH)
     (filter (fun c => match assoc_get CH c with Some _ => true | None => false end) l)).
Proof.
  unfold cat_all. induction l as [|x l IH]; [reflexivity|].
  cbn [map filter fold_right]. destruct (assoc_get CH x) eqn:E.
  - cbn [map fold_right]. now rewrite IH.
  - assert (Hx : help_line CH x = "") by (unfold help_line; now rewrite E).
    rewrite Hx. exact IH.
Qed.

Lemma help_categories_sorted (K : string) :
  In K help_order -> category_cmds K <> [] /\ ssorted_b (py_sorted (category_cmds K)) = true.
Proof.
  intro HK. repeat (destruct HK as [<-|HK]; [split; [discriminate|reflexivity]|]).
  destruct HK.
Qed.

(** C8 (amended): for every help mapping, [help] lists under each of the six
    categories of its hard-coded table, in their fixed order, exactly the
    commands of that category's hard-coded list that have a help text,
    alphabetically, and ends with the current directory relative to the jail
    root and the navigation tip. *)
Theorem help_lists_fixed_table (CH : list (string * string)) (args : list string)
  (s : session) (rel : path) :
  current_dir s = (terminal_root s ++ rel)%list ->
  exists Ls : list (list string),
    length Ls = length help_order /\
    (forall K L, In (K, L) (combine help_order Ls) ->
       StronglySorted (fun a b => String.ltb a b = true) L /\
       (forall c, In c L <-> In c (category_cmds K) /\ assoc_get CH c <> None)) /\
    cmd_help CH args s =
      (ok ("Available commands:" ++ nl ++ nl ++
           cat_all (map (fun '(K, L) => K ++ ":" ++ nl ++ cat_all (map (help_line CH) L) ++ nl)
                        (combine help_order Ls)) ++
           "Current directory: " ++ rel_str rel ++ nl ++ help_tip), s).
Proof.
  intro H.
  set (has := fun c => match assoc_get CH c with Some _ => true | None => false end).
  set (g := fun K => filter has (py_sorted (category_cmds K))).
  exists (map g help_order). split; [apply length_map|]. split.
  - intros K L HKL. apply in_combine_map in HKL as [-> HK].
    destruct (help_categories_sorted K HK) as [_ Hs]. split.
    + apply StronglySorted_filter. now apply ssorted_b_sound.
    + intro c. unfold g. rewrite filter_In.
      split; intros [H1 H2]; split.
      * exact (Permutation_in _ (py_sorted_perm _) H1).
      * unfold has in H2. destruct (assoc_get CH c); [discriminate|discriminate H2].
      * exact (Permutation_in _ (Permutation_sym (py_sorted_perm _)) H1).
      * unfold has. destruct (assoc_get CH c); [reflexivity|contradiction].
  - unfold cmd_help. rewrite H, relative_to_app.
    rewrite (fold_left_ext_in _
               (fun t K => t ++ (K ++ ":" ++ nl ++ cat_all (map (help_line CH) (g K)) ++ nl))).
    + rewrite fold_left_append.
      assert (E : map (fun K => K ++ ":" ++ nl ++ cat_all (map (help_line CH) (g K)) ++ nl)
                    help_order
                  = map (fun '(K, L) => K ++ ":" ++ nl ++ cat_all (map (help_line CH) L) ++ nl)
                      (combine help_order (map g help_order))) by reflexivity.
      rewrite E. now rewrite !append_assoc_s.
    + intros t K HK. destruct (help_categories_sorted K HK) as [Hne _].
      destruct (category_cmds K) as [|c0 cs] eqn:Ec; [contradiction|].
      rewrite <- Ec. rewrite fold_left_append. unfold g.
      rewrite <- help_line_filter. now rewrite !append_assoc_s.
Qed.

Lemma help_lists_fixed_table_witness :
  exists Ls : list (list string),
    length Ls = length help_order /\
    cmd_help [("ls", "List directory contents")] [] fresh_session =
      (ok ("Available commands:" ++ nl ++ nl ++
           cat_all (map (fun '(K, L) => K ++ ":" ++ nl
                                          ++ cat_all (map (help_line [("ls", "List directory contents")]) L)
                                          ++ nl)
                        (combine help_order Ls)) ++
           "Current directory: " ++ rel_str [] ++ nl ++ help_tip), fresh_session).
Proof.
  destruct (help_lists_fixed_table [("ls", "List directory contents")] [] fresh_session []
              eq_refl) as [Ls [HL [_ HO]]].
  exists Ls. split; assumption.
Defined.

(** The counterexample of C8: a registered command with a help text that
    is not in the hard-coded table of [cmd_help] does not appear in its
    output. *)
Lemma help_omits_command_outside_table :
  str_mem "nano" ("nano" :: COMMANDS_spec) = true /\
  assoc_get [("nano", "Edit a text file")] "nano" = Some "Edit a text file" /\
  match fst (cmd_help [("nano", "Edit a text file")] [] fresh_session) with
  | Ret (Some out) => py_in "nano" out = false
  | _ => False
  end.
Proof. split; [reflexivity|]. split; [reflexivity|]. vm_compute. reflexivity. Qed.

(** ** Lemmas on the file system walk and the other handlers *)

Lemma kwalk_cons (f : nat) (fs : fsys) (cur : path) (c : string) (rest : list string) :
  kwalk (S f) fs cur (c :: rest) =
  if String.eqb c ".." then kwalk (S f) fs (parent cur) rest
  else if String.eqb c "" || String.eqb c "." then kwalk (S f) fs cur rest
  else
    let last := match rest with [] => true | _ => false end in
    match lookup fs ((cur ++ [c])%list) with
    | None => if last then KNone else KErr ENOENT
    | Some NDir => kwalk (S f) fs ((cur ++ [c])%list) rest
    | Some (NFile _) => if last then KFile ((cur ++ [c])%list) else KErr ENOTDIR
    | Some (NLink t) =>
        match kwalk f fs [] t with
        | KDir q => kwalk (S f) fs q rest
        | KFile q => if last then KFile q else KErr ENOTDIR
        | KNone => if last then KNone else KErr ENOENT
        | KErr e => KErr e
        end
    end.
Proof. reflexivity. Qed.

Lemma kwalk_app_last (f : nat) (fs : fsys) (cur : path) (comps : list string) (c : string) :
  kwalk (S f) fs cur (comps ++ [c]) =
  match kwalk (S f) fs cur comps with
  | KDir d => kwalk (S f) fs d [c]
  | KFile _ => KErr ENOTDIR
  | KNone => KErr ENOENT
  | KErr e => KErr e
  end.
Proof.
  revert cur. induction comps as [|c0 comps IH]; intro cur; [reflexivity|].
  change ((c0 :: comps) ++ [c])%list with (c0 :: (comps ++ [c]))%list.
  rewrite !kwalk_cons.
  destruct (String.eqb c0 ".."); [apply IH|].
  destruct (String.eqb c0 "" || String.eqb c0 "."); [apply IH|].
  assert (Hne : match (comps ++ [c])%list with [] => true | _ => false end = false)
    by (destruct comps; reflexivity).
  cbv zeta. rewrite Hne.
  destruct (lookup fs ((cur ++ [c0])%list)) as [[| |t]|];
    [apply IH | destruct comps; reflexivity | | destruct comps; reflexivity].
  destruct (kwalk f fs [] t); [apply IH| destruct comps; reflexivity ..].
Qed.

Lemma normal_name_neq (c : string) : normal_name c = true ->
  String.eqb c ".." = false /\ (String.eqb c "" || String.eqb c ".") = false.
Proof.
  unfold normal_name. destruct (String.eqb c ".."), (String.eqb c ""), (String.eqb c ".");
    simpl; intuition discriminate.
Qed.

Lemma kwalk_step (f : nat) (fs : fsys) (d : path) (c : string) :
  normal_name c = true ->
  kwalk (S f) fs d [c] =
  match lookup fs ((d ++ [c])%list) with
  | None => KNone
  | Some NDir => KDir ((d ++ [c])%list)
  | Some (NFile _) => KFile ((d ++ [c])%list)
  | Some (NLink t) =>
      match kwalk f fs [] t with
      | KErr e => KErr e
      | r => r
      end
  end.
Proof.
  intro Hn. destruct (normal_name_neq c Hn) as [H1 H2].
  rewrite kwalk_cons, H1, H2. cbv zeta.
  destruct (lookup fs ((d ++ [c])%list)) as [[| |t]|]; try reflexivity; destruct (kwalk f fs [] t); reflexivity.
Qed.

Lemma real_dirs_app (fs : fsys) (pre p q : path) :
  real_dirs fs pre (p ++ q)%list = real_dirs fs pre p && real_dirs fs (pre ++ p)%list q.
Proof.
  revert pre. induction p as [|c p IH]; intro pre; simpl.
  - now rewrite app_nil_r.
  - rewrite IH, <- app_assoc. simpl. now rewrite !andb_assoc.
Qed.

Lemma real_dirs_kwalk (f : nat) (fs : fsys) (pre p : path) :
  real_dirs fs pre p = true -> kwalk (S f) fs pre p = KDir (pre ++ p)%list.
Proof.
  revert pre. induction p as [|c p IH]; intros pre H.
  - now rewrite app_nil_r.
  - simpl in H. rewrite !andb_true_iff in H. destruct H as [[Hn Hl] Hr].
    destruct (normal_name_neq c Hn) as [H1 H2].
    rewrite kwalk_cons, H1, H2. cbv zeta.
    destruct (lookup fs ((pre ++ [c])%list)) as [[| |t]|]; try discriminate.
    rewrite (IH _ Hr). now rewrite <- app_assoc.
Qed.

Lemma real_dirs_kstat (fs : fsys) (p : path) :
  real_dirs fs [] p = true -> kstat fs p = KDir p.
Proof. intro H. exact (real_dirs_kwalk _ fs [] p H). Qed.






Lemma path_div_simple (p : path) (x : string) :
  simple_name x = true -> path_div p x = (p ++ [x])%list.
Proof.
  unfold simple_name. rewrite andb_true_iff, negb_true_iff. intros [Hn Hc].
  destruct (normal_name_neq x Hn) as [_ H2].
  rewrite orb_false_iff in H2. destruct H2 as [He Hd].
  destruct x as [|c r]; [discriminate|].
  pose proof Hc as Hc0.
  unfold path_div. simpl in Hc. rewrite orb_false_iff in Hc. destruct Hc as [Hcs _].
  rewrite Hcs. unfold parse_parts.
  rewrite split_on_no_char by exact Hc0.
  cbn [filter]. rewrite He, Hd. reflexivity.
Qed.



Lemma lookup_cons (fs : fsys) (q p : path) (n : node) :
  lookup ((q, n) :: fs) p = if path_eqb p q then Some n else lookup fs p.
Proof. reflexivity. Qed.

Lemma path_eqb_refl (p : path) : path_eqb p p = true.
Proof. now apply path_eqb_eq. Qed.

Lemma lookup_remove_other (fs : fsys) (q p : path) :
  path_eqb p q = false -> lookup (remove_entry fs q) p = lookup fs p.
Proof.
  intro H. induction fs as [|[k n] fs IH]; [reflexivity|].
  unfold remove_entry in *. simpl.
  destruct (path_eqb k q) eqn:E; simpl.
  - apply path_eqb_eq in E. subst k. now rewrite H.
  - now rewrite IH.
Qed.

Lemma lookup_remove_same (fs : fsys) (q : path) :
  q <> [] -> lookup (remove_entry fs q) q = None.
Proof.
  intro H. induction fs as [|[k n] fs IH]; [now destruct q|].
  unfold remove_entry in *. simpl.
  destruct (path_eqb k q) eqn:E; simpl; [exact IH|].
  destruct (path_eqb q k) eqn:E2; [|exact IH].
  apply path_eqb_eq in E2. subst k. now rewrite path_eqb_refl in E.
Qed.


Lemma real_dirs_cons (fs : fsys) (pre p q : path) (n : node) :
  real_dirs fs pre p = true -> lookup fs q = None -> real_dirs ((q, n) :: fs) pre p = true.
Proof.
  intros H Hq. revert pre H. induction p as [|c p IH]; intros pre H; [reflexivity|].
  simpl in *. rewrite !andb_true_iff in *. destruct H as [[Hn Hl] Hr].
  destruct (path_eqb (pre ++ [c])%list q) eqn:E.
  - apply path_eqb_eq in E. rewrite E, Hq in Hl. discriminate.
  - repeat split; auto.
Qed.

Lemma real_dirs_remove (fs : fsys) (pre p q : path) :
  real_dirs fs pre p = true -> lookup fs q <> Some NDir ->
  real_dirs (remove_entry fs q) pre p = true.
Proof.
  intros H Hq. revert pre H. induction p as [|c p IH]; intros pre H; [reflexivity|].
  simpl in *. rewrite !andb_true_iff in *. destruct H as [[Hn Hl] Hr].
  destruct (path_eqb (pre ++ [c])%list q) eqn:E.
  - apply path_eqb_eq in E. rewrite E in Hl.
    destruct (lookup fs q) as [[| |]|]; try discriminate. congruence.
  - rewrite lookup_remove_other by exact E. repeat split; auto.
Qed.

Lemma kstat_child (fs : fsys) (cur : path) (x : string) :
  real_dirs fs [] cur = true -> normal_name x = true ->
  kstat fs (cur ++ [x])%list =
  match lookup fs (cur ++ [x])%list with
  | None => KNone
  | Some NDir => KDir (cur ++ [x])%list
  | Some (NFile _) => KFile (cur ++ [x])%list
  | Some (NLink t) =>
      match kwalk 39 fs [] t with
      | KErr e => KErr e
      | r => r
      end
  end.
Proof.
  intros H Hn. unfold kstat, maxsymlinks.
  rewrite kwalk_app_last, (real_dirs_kwalk _ _ [] cur H).
  exact (kwalk_step _ _ _ _ Hn).
Qed.

Lemma simple_name_normal (x : string) : simple_name x = true -> normal_name x = true.
Proof. unfold simple_name. rewrite andb_true_iff. tauto. Qed.

Lemma match_nonempty {B : Type} (p : path) (b0 g : B) :
  p <> [] -> match p with [] => b0 | _ :: _ => g end = g.
Proof. destruct p; [congruence|reflexivity]. Qed.

Lemma app_single_neq (cur : path) (x : string) : (cur ++ [x])%list <> [].
Proof. destruct cur; discriminate. Qed.

Lemma os_mkdir_child (fs : fsys) (cur : path) (x : string) :
  real_dirs fs [] cur = true -> normal_name x = true -> lookup fs (cur ++ [x])%list = None ->
  os_mkdir fs (cur ++ [x])%list = inl (((cur ++ [x])%list, NDir) :: fs).
Proof.
  intros H Hn Hl. unfold os_mkdir.
  rewrite match_nonempty by apply app_single_neq.
  unfold parent. rewrite removelast_last, last_last, (real_dirs_kstat _ _ H).
  destruct (normal_name_neq x Hn) as [H1 _]. rewrite H1, Hl. reflexivity.
Qed.

Lemma mkdir_child (fs : fsys) (cur : path) (x : string) (parents exist_ok : bool) :
  real_dirs fs [] cur = true -> normal_name x = true -> lookup fs (cur ++ [x])%list = None ->
  mkdir fs (cur ++ [x])%list parents exist_ok = ((((cur ++ [x])%list, NDir) :: fs), None).
Proof.
  intros H Hn Hl. unfold mkdir. rewrite length_app, Nat.add_1_r.
  cbn [path_mkdir]. rewrite (os_mkdir_child _ _ _ H Hn Hl). reflexivity.
Qed.









Lemma real_dirs_remove_longer (fs : fsys) (pre p q : path) :
  real_dirs fs pre p = true -> length (pre ++ p) < length q ->
  real_dirs (remove_entry fs q) pre p = true.
Proof.
  revert pre. induction p as [|c p IH]; intros pre H Hlen; [reflexivity|].
  simpl in *. rewrite !andb_true_iff in *. destruct H as [[Hn Hl] Hr].
  assert (E : path_eqb (pre ++ [c])%list q = false).
  { apply not_true_is_false. intro E. apply path_eqb_eq in E. subst q.
    rewrite !length_app in Hlen. simpl in Hlen. lia. }
  rewrite lookup_remove_other by exact E. repeat split; auto.
  apply IH; [exact Hr|]. rewrite <- app_assoc. exact Hlen.
Qed.

Lemma os_rmdir_child (fs : fsys) (cur : path) (x : string) :
  real_dirs fs [] cur = true -> normal_name x = true ->
  lookup fs (cur ++ [x])%list = Some NDir ->
  os_rmdir fs (cur ++ [x])%list =
  if has_children fs (cur ++ [x])%list then inr (not_empty_error (cur ++ [x])%list)
  else inl (remove_entry fs (cur ++ [x])%list).
Proof.
  intros H Hn Hl. unfold os_rmdir.
  rewrite match_nonempty by apply app_single_neq.
  unfold parent. rewrite removelast_last, last_last, (real_dirs_kstat _ _ H).
  destruct (normal_name_neq x Hn) as [H1 _]. rewrite H1, Hl. reflexivity.
Qed.

Lemma real_dirs_snoc (fs : fsys) (cur : path) (x : string) :
  real_dirs fs [] (cur ++ [x])%list = true ->
  real_dirs fs [] cur = true /\ normal_name x = true /\ lookup fs (cur ++ [x])%list = Some NDir.
Proof.
  rewrite real_dirs_app. simpl. rewrite !andb_true_iff.
  intros [H [[Hn Hl] _]]. repeat split; auto.
  destruct (lookup fs (cur ++ [x])%list) as [[| |]|]; congruence.
Qed.



(** X4: [rmdir x] of a directory with entries reports [Errno 39] "Directory
    not empty" with the host path and changes nothing. *)
Theorem rmdir_keeps_nonempty (s : session) (x : string) :
  real_dirs (host s) [] (current_dir s ++ [x])%list = true -> simple_name x = true ->
  has_children (host s) (current_dir s ++ [x])%list = true ->
  cmd_rmdir [x] s =
  (ok ("rmdir: failed to remove '" ++ x ++ "': [Errno 39] Directory not empty: '"
       ++ path_str (current_dir s ++ [x])%list ++ "'"), s).
Proof.
  intros Hr Hs Hc. destruct (real_dirs_snoc _ _ _ Hr) as [Hr0 [Hn Hl]].
  unfold cmd_rmdir. rewrite path_div_simple by exact Hs.
  unfold path_is_dir. rewrite (real_dirs_kstat _ _ Hr).
  rewrite (os_rmdir_child _ _ _ Hr0 Hn Hl), Hc. reflexivity.
Qed.

Lemma rmdir_keeps_nonempty_witness :
  cmd_rmdir ["docs"] work_session =
  (ok ("rmdir: failed to remove 'docs': [Errno 39] Directory not empty: '"
       ++ "/tmp/terminal_root/docs'"), work_session).
Proof.
  apply (rmdir_keeps_nonempty work_session "docs"); vm_compute; reflexivity.
Defined.

Lemma path_div_dot (p : path) : path_div p "." = p.
Proof. unfold path_div. cbn. apply app_nil_r. Qed.

(** X5: [rmdir .] in an empty current directory removes that directory,
    which the session still points at: it no longer exists. *)
Theorem rmdir_dot_removes_current (s : session) :
  current_dir s <> [] -> real_dirs (host s) [] (current_dir s) = true ->
  has_children (host s) (current_dir s) = false ->
  cmd_rmdir ["."] s =
  (ok "Removed directory: .", set_host s (remove_entry (host s) (current_dir s)))
  /\ path_exists (remove_entry (host s) (current_dir s)) (current_dir s) = false.
Proof.
  intros Hne Hr Hc.
  destruct s as [root cur fs]. cbn [current_dir host] in Hne, Hr, Hc |- *.
  destruct (exists_last Hne) as [c0 [y E]]. subst cur.
  destruct (real_dirs_snoc _ _ _ Hr) as [Hr0 [Hn Hl]].
  split.
  - unfold cmd_rmdir. cbv beta iota zeta. rewrite path_div_dot. cbn [current_dir host].
    unfold path_is_dir. rewrite (real_dirs_kstat _ _ Hr).
    rewrite (os_rmdir_child _ _ _ Hr0 Hn Hl), Hc. reflexivity.
  - assert (Hr1 : real_dirs (remove_entry fs (c0 ++ [y])%list) [] c0 = true).
    { apply real_dirs_remove_longer; [exact Hr0|]. rewrite !length_app. simpl. lia. }
    unfold path_exists. rewrite (kstat_child _ _ _ Hr1 Hn).
    rewrite lookup_remove_same by apply app_single_neq. reflexivity.
Qed.

Lemma rmdir_dot_removes_current_witness :
  path_exists (remove_entry work_fs (tmp_root ++ ["empty"])%list)
    (tmp_root ++ ["empty"])%list = false.
Proof.
  apply (proj2 (rmdir_dot_removes_current empty_session ltac:(discriminate)
                  ltac:(vm_compute; reflexivity) ltac:(vm_compute; reflexivity))).
Defined.


Lemma os_unlink_child (fs : fsys) (cur : path) (x : string) (n : node) :
  real_dirs fs [] cur = true -> normal_name x = true ->
  lookup fs (cur ++ [x])%list = Some n -> n <> NDir ->
  os_unlink fs (cur ++ [x])%list = inl (remove_entry fs (cur ++ [x])%list).
Proof.
  intros H Hn Hl Hd. unfold os_unlink.
  rewrite match_nonempty by apply app_single_neq.
  unfold parent. rewrite removelast_last, last_last, (real_dirs_kstat _ _ H).
  destruct (normal_name_neq x Hn) as [H1 _]. rewrite H1, Hl.
  destruct n; [congruence|reflexivity|reflexivity].
Qed.

Lemma os_symlink_child (fs : fsys) (cur : path) (x : string) (t : path) :
  real_dirs fs [] cur = true -> normal_name x = true -> lookup fs (cur ++ [x])%list = None ->
  os_symlink fs t (cur ++ [x])%list = inl (((cur ++ [x])%list, NLink t) :: fs).
Proof.
  intros H Hn Hl. unfold os_symlink.
  rewrite match_nonempty by apply app_single_neq.
  unfold parent. rewrite removelast_last, last_last, (real_dirs_kstat _ _ H).
  destruct (normal_name_neq x Hn) as [H1 _]. rewrite H1, Hl. reflexivity.
Qed.

Lemma kwalk_file_child (f : nat) (fs : fsys) (cur : path) (x : string) (c : string) :
  real_dirs fs [] cur = true -> normal_name x = true ->
  lookup fs (cur ++ [x])%list = Some (NFile c) ->
  kwalk (S f) fs [] (cur ++ [x])%list = KFile (cur ++ [x])%list.
Proof.
  intros H Hn Hl. rewrite kwalk_app_last, (real_dirs_kwalk _ _ [] cur H), app_nil_l.
  rewrite (kwalk_step _ _ _ _ Hn), Hl. reflexivity.
Qed.

Lemma read_file_child (fs : fsys) (cur : path) (x : string) (c : string) :
  real_dirs fs [] cur = true -> normal_name x = true ->
  lookup fs (cur ++ [x])%list = Some (NFile c) ->
  read_file fs (cur ++ [x])%list = Some c.
Proof.
  intros H Hn Hl. unfold read_file, kstat, maxsymlinks.
  rewrite (kwalk_file_child _ _ _ _ _ H Hn Hl), Hl. reflexivity.
Qed.

Lemma with_text_missing (s : session) (p : path) (name : string) k :
  path_is_file (host s) p = false -> with_text s p name k = (ok ("No such file: " ++ name), s).
Proof. intro H. unfold with_text. now rewrite H. Qed.

Lemma path_eqb_child (cur : path) (a b : string) :
  a <> b -> path_eqb (cur ++ [a])%list (cur ++ [b])%list = false.
Proof.
  intro H. apply not_true_is_false. intro E. apply path_eqb_eq in E.
  apply app_inv_head in E. congruence.
Qed.



(** X7: [rm] never removes a directory: on one it answers with the hint to
    use [rmdir] and leaves the session unchanged. *)
Theorem rm_refuses_directory (s : session) (x : string) :
  path_is_dir (host s) (path_div (current_dir s) x) = true ->
  cmd_rm [x] s = (ok ("rm: " ++ x ++ " is a directory (use rmdir or rm -r)"), s).
Proof.
  intro H. unfold cmd_rm. rewrite H.
  unfold path_is_dir in H. unfold path_is_file.
  destruct (kstat (host s) (path_div (current_dir s) x)); try discriminate. reflexivity.
Qed.

Lemma rm_refuses_directory_witness :
  cmd_rm ["docs"] work_session
  = (ok "rm: docs is a directory (use rmdir or rm -r)", work_session).
Proof.
  apply (rm_refuses_directory work_session "docs"). vm_compute. reflexivity.
Defined.

(** X8: [rm x] of a regular file removes it; [cat x] afterwards answers
    "No such file". *)
Theorem rm_then_cat (s : session) (x c : string) :
  real_dirs (host s) [] (current_dir s) = true -> simple_name x = true ->
  lookup (host s) (current_dir s ++ [x])%list = Some (NFile c) ->
  let s1 := snd (cmd_rm [x] s) in
  fst (cmd_rm [x] s) = ok ("Removed file: " ++ x) /\
  cmd_cat [x] s1 = (ok ("No such file: " ++ x), s1).
Proof.
  intros Hr Hs Hl. cbv zeta. pose proof (simple_name_normal x Hs) as Hn.
  set (q := (current_dir s ++ [x])%list).
  assert (E : cmd_rm [x] s = (ok ("Removed file: " ++ x), set_host s (remove_entry (host s) q))).
  { unfold cmd_rm. rewrite path_div_simple by exact Hs.
    unfold path_is_file. rewrite (kstat_child _ _ _ Hr Hn), Hl.
    unfold q. rewrite (os_unlink_child _ _ _ _ Hr Hn Hl) by discriminate. reflexivity. }
  rewrite E. cbn [fst snd]. subst q. split; [reflexivity|].
  unfold cmd_cat. cbn [current_dir host set_host]. rewrite path_div_simple by exact Hs.
  apply with_text_missing. cbn [host set_host].
  assert (Hr1 : real_dirs (remove_entry (host s) (current_dir s ++ [x])%list) [] (current_dir s) = true).
  { apply real_dirs_remove_longer; [exact Hr|]. rewrite !length_app. simpl. lia. }
  unfold path_is_file. rewrite (kstat_child _ _ _ Hr1 Hn).
  rewrite lookup_remove_same by apply app_single_neq. reflexivity.
Qed.

Lemma rm_then_cat_witness :
  fst (cmd_cat ["b.txt"] (snd (cmd_rm ["b.txt"] work_session)))
  = ok "No such file: b.txt".
Proof.
  destruct (rm_then_cat work_session "b.txt" work_text eq_refl eq_refl eq_refl)
    as [_ H].
  rewrite H. reflexivity.
Defined.

(** X9: [rm l] of a symbolic link to a file removes the link only: [cat l]
    answers "No such file" and [cat] of the target still prints it. *)
Theorem rm_link_keeps_target (s : session) (l f c : string) :
  real_dirs (host s) [] (current_dir s) = true -> simple_name l = true -> simple_name f = true ->
  lookup (host s) (current_dir s ++ [l])%list = Some (NLink (current_dir s ++ [f])%list) ->
  lookup (host s) (current_dir s ++ [f])%list = Some (NFile c) ->
  let s1 := snd (cmd_rm [l] s) in
  fst (cmd_rm [l] s) = ok ("Removed file: " ++ l) /\
  fst (cmd_cat [l] s1) = ok ("No such file: " ++ l) /\
  fst (cmd_cat [f] s1) = ok (universal_newlines c).
Proof.
  intros Hr Hsl Hsf Hll Hlf. cbv zeta.
  pose proof (simple_name_normal l Hsl) as Hnl. pose proof (simple_name_normal f Hsf) as Hnf.
  assert (Hlf' : l <> f) by (intro E; subst f; congruence).
  set (q := (current_dir s ++ [l])%list).
  assert (E : cmd_rm [l] s = (ok ("Removed file: " ++ l), set_host s (remove_entry (host s) q))).
  { unfold cmd_rm. rewrite path_div_simple by exact Hsl.
    unfold path_is_file. rewrite (kstat_child _ _ _ Hr Hnl), Hll.
    rewrite (kwalk_file_child _ _ _ _ _ Hr Hnf Hlf).
    unfold q. rewrite (os_unlink_child _ _ _ _ Hr Hnl Hll) by discriminate. reflexivity. }
  rewrite E. cbn [fst snd]. subst q. split; [reflexivity|].
  assert (Hr1 : real_dirs (remove_entry (host s) (current_dir s ++ [l])%list) [] (current_dir s) = true).
  { apply real_dirs_remove_longer; [exact Hr|]. rewrite !length_app. simpl. lia. }
  split.
  - unfold cmd_cat. cbn [current_dir host set_host]. rewrite path_div_simple by exact Hsl.
    rewrite with_text_missing; [reflexivity|]. cbn [host set_host].
    unfold path_is_file. rewrite (kstat_child _ _ _ Hr1 Hnl).
    rewrite lookup_remove_same by apply app_single_neq. reflexivity.
  - unfold cmd_cat. cbn [current_dir host set_host]. rewrite path_div_simple by exact Hsf.
    rewrite with_text_file with (c := c); [reflexivity|]. cbn [host set_host].
    apply (read_file_child _ _ _ _ Hr1 Hnf).
    rewrite lookup_remove_other by (apply path_eqb_child; congruence). exact Hlf.
Qed.

Lemma rm_link_keeps_target_witness :
  fst (cmd_cat ["b.txt"] (snd (cmd_rm ["l"] work_session)))
  = ok (universal_newlines work_text).
Proof.
  exact (proj2 (proj2 (rm_link_keeps_target work_session "l" "b.txt" work_text
                         eq_refl eq_refl eq_refl eq_refl eq_refl))).
Defined.

(** X10: [ln a b] to a regular file [a] with a free name [b] creates a link
    through which [cat b] prints what [cat a] prints. *)
Theorem ln_then_cat (s : session) (a b c : string) :
  real_dirs (host s) [] (current_dir s) = true -> simple_name a = true -> simple_name b = true ->
  lookup (host s) (current_dir s ++ [a])%list = Some (NFile c) ->
  lookup (host s) (current_dir s ++ [b])%list = None ->
  let s1 := snd (cmd_ln [a; b] s) in
  fst (cmd_ln [a; b] s) = ok ("Created symbolic link: " ++ b ++ " -> " ++ a) /\
  fst (cmd_cat [b] s1) = ok (universal_newlines c) /\
  fst (cmd_cat [a] s) = ok (universal_newlines c).
Proof.
  intros Hr Hsa Hsb Hla Hlb. cbv zeta.
  pose proof (simple_name_normal a Hsa) as Hna. pose proof (simple_name_normal b Hsb) as Hnb.
  assert (Hab : a <> b) by (intro E; subst b; congruence).
  set (fs1 := (((current_dir s ++ [b])%list, NLink (current_dir s ++ [a])%list) :: host s)).
  assert (E : cmd_ln [a; b] s = (ok ("Created symbolic link: " ++ b ++ " -> " ++ a), set_host s fs1)).
  { unfold cmd_ln. rewrite !path_div_simple by assumption.
    now rewrite (os_symlink_child _ _ _ _ Hr Hnb Hlb). }
  rewrite E. cbn [fst snd]. split; [reflexivity|].
  assert (Hr1 : real_dirs fs1 [] (current_dir s) = true) by exact (real_dirs_cons _ _ _ _ _ Hr Hlb).
  assert (Hla1 : lookup fs1 (current_dir s ++ [a])%list = Some (NFile c))
    by (unfold fs1; rewrite lookup_cons, path_eqb_child by exact Hab; exact Hla).
  assert (Hlb1 : lookup fs1 (current_dir s ++ [b])%list = Some (NLink (current_dir s ++ [a])%list))
    by (unfold fs1; rewrite lookup_cons, path_eqb_refl; reflexivity).
  split.
  - unfold cmd_cat. cbn [current_dir host set_host]. rewrite path_div_simple by exact Hsb.
    rewrite with_text_file with (c := c); [reflexivity|]. cbn [host set_host].
    unfold read_file. rewrite (kstat_child _ _ _ Hr1 Hnb), Hlb1.
    rewrite (kwalk_file_child _ _ _ _ _ Hr1 Hna Hla1), Hla1. reflexivity.
  - unfold cmd_cat. rewrite path_div_simple by exact Hsa.
    rewrite with_text_file with (c := c); [reflexivity|].
    exact (read_file_child _ _ _ _ Hr Hna Hla).
Qed.

Lemma ln_then_cat_witness :
  fst (cmd_cat ["m"] (snd (cmd_ln ["b.txt"; "m"] work_session)))
  = ok (universal_newlines work_text).
Proof.
  exact (proj1 (proj2 (ln_then_cat work_session "b.txt" "m" work_text
                         eq_refl eq_refl eq_refl eq_refl eq_refl))).
Defined.

(** X11: [ls] in an empty directory prints "(empty directory)"; after
    [mkdir x] it prints [x/]. *)
Theorem ls_after_mkdir (s : session) (x : string) :
  real_dirs (host s) [] (current_dir s) = true -> simple_name x = true ->
  listdir (host s) (current_dir s) = [] ->
  lookup (host s) (current_dir s ++ [x])%list = None ->
  fst (cmd_ls [] s) = ok "(empty directory)" /\
  fst (cmd_ls [] (snd (cmd_mkdir [x] s))) = ok (x ++ "/").
Proof.
  intros Hr Hs Hd Hl. pose proof (simple_name_normal x Hs) as Hn.
  split.
  - unfold cmd_ls. rewrite (real_dirs_kstat _ _ Hr), Hd. reflexivity.
  - set (fs1 := (((current_dir s ++ [x])%list, NDir) :: host s)).
    assert (E : cmd_mkdir [x] s = (ok ("Created directory: " ++ x), set_host s fs1)).
    { unfold cmd_mkdir. rewrite path_div_simple by exact Hs.
      now rewrite (mkdir_child _ _ _ true false Hr Hn Hl). }
    rewrite E. cbn [snd].
    assert (Hr1 : real_dirs fs1 [] (current_dir s) = true) by exact (real_dirs_cons _ _ _ _ _ Hr Hl).
    assert (Hd1 : listdir fs1 (current_dir s) = [x]).
    { unfold fs1, listdir. cbn [fold_right fst]. fold (listdir (host s) (current_dir s)).
      rewrite Hd, strip_prefix_app.
      destruct (normal_name_neq x Hn) as [H1 H2].
      unfold normal_name in Hn. 
      destruct (String.eqb x ""), (String.eqb x "."), (String.eqb x ".."); try discriminate.
      reflexivity. }
    unfold cmd_ls. cbn [current_dir host set_host].
    rewrite (real_dirs_kstat _ _ Hr1), Hd1. cbn [py_sorted insert_sorted map].
    rewrite path_div_simple by exact Hs.
    assert (Hr2 : real_dirs fs1 [] (current_dir s ++ [x])%list = true).
    { assert (Hl1 : lookup fs1 (current_dir s ++ [x])%list = Some NDir)
        by (unfold fs1; rewrite lookup_cons, path_eqb_refl; reflexivity).
      rewrite real_dirs_app, Hr1. cbn [real_dirs app]. try rewrite app_nil_l; rewrite Hl1, Hn. reflexivity. }
    unfold path_is_dir. rewrite (real_dirs_kstat _ _ Hr2). reflexivity.
Qed.

Lemma ls_after_mkdir_witness :
  fst (cmd_ls [] (snd (cmd_mkdir ["x"] empty_session))) = ok "x/".
Proof.
  apply (proj2 (ls_after_mkdir empty_session "x" eq_refl eq_refl eq_refl eq_refl)).
Defined.

(** X12: [cd] with no argument moves to [terminal_root/home] without
    checking it exists: when it does not, [pwd] still says [home] and [ls]
    reports the host error [Errno 2] with the host path. *)
Theorem cd_home_unchecked (s : session) :
  kstat (host s) (terminal_root s ++ ["home"])%list = KNone ->
  fst (cmd_cd [] s) =
    ok ("Changed to home directory: " ++ path_str (terminal_root s ++ ["home"])%list) /\
  fst (cmd_pwd [] (snd (cmd_cd [] s))) = ok "home" /\
  fst (cmd_ls [] (snd (cmd_cd [] s))) =
    ok ("Error listing directory: [Errno 2] No such file or directory: '"
        ++ path_str (terminal_root s ++ ["home"])%list ++ "'").
Proof.
  intro H. split; [reflexivity|]. split.
  - unfold cmd_pwd. simpl. rewrite relative_to_app. reflexivity.
  - unfold cmd_ls. simpl. rewrite H. reflexivity.
Qed.

Lemma cd_home_unchecked_witness :
  fst (cmd_pwd [] (snd (cmd_cd [] work_session))) = ok "home".
Proof.
  exact (proj1 (proj2 (cd_home_unchecked work_session eq_refl))).
Defined.

(** ** Text handlers *)

(** X13: [head] prints the first and [tail] the last [min 10 n] lines of the
    text read, a prefix and a suffix of its lines; for at most 10 lines both
    print every line. *)
Theorem head_tail_windows (s : session) (name c : string) :
  read_file (host s) (path_div (current_dir s) name) = Some c ->
  let L := splitlines (universal_newlines c) in
  exists H T,
    cmd_head [name] s = (ok (py_join nl H), s) /\
    cmd_tail [name] s = (ok (py_join nl T), s) /\
    length H = Nat.min 10 (length L) /\ length T = Nat.min 10 (length L) /\
    (exists R, L = (H ++ R)%list) /\ (exists P, L = (P ++ T)%list) /\
    (length L <= 10 -> H = L /\ T = L).
Proof.
  intros Hc L. exists (firstn 10 L), (skipn (length L - 10) L).
  split; [unfold cmd_head; now rewrite with_text_file with (c := c)|].
  split; [unfold cmd_tail; now rewrite with_text_file with (c := c)|].
  split; [apply length_firstn|].
  split; [rewrite length_skipn; lia|].
  split; [exists (skipn 10 L); symmetry; apply firstn_skipn|].
  split; [exists (firstn (length L - 10) L); symmetry; apply firstn_skipn|].
  intro Hn. split; [apply firstn_all2; lia|].
  replace (length L - 10) with 0 by lia. reflexivity.
Qed.

Lemma head_tail_windows_witness :
  exists H T,
    cmd_head ["b.txt"] work_session = (ok (py_join nl H), work_session) /\
    cmd_tail ["b.txt"] work_session = (ok (py_join nl T), work_session) /\
    H = splitlines (universal_newlines work_text) /\
    T = splitlines (universal_newlines work_text).
Proof.
  destruct (head_tail_windows work_session "b.txt" work_text eq_refl)
    as [H [T [E1 [E2 [_ [_ [_ [_ E3]]]]]]]].
  destruct (E3 ltac:(vm_compute; lia)) as [E4 E5].
  exists H, T. repeat split; assumption.
Defined.

Lemma insert_sorted_sorted (x : string) (l : list string) :
  Sorted (fun a b => String.leb a b = true) l ->
  Sorted (fun a b => String.leb a b = true) (insert_sorted x l).
Proof.
  induction l as [|h t IH]; intro H; simpl; [repeat constructor|].
  destruct (String.leb x h) eqn:E; [constructor; [exact H | now constructor]|].
  inversion H as [|? ? Ht Hh]; subst.
  assert (Ehx : String.leb h x = true) by (destruct (String.leb_total x h); congruence).
  constructor; [exact (IH Ht)|].
  destruct t as [|h2 t]; simpl; [now constructor|].
  inversion Hh; subst. destruct (String.leb x h2); now constructor.
Qed.

Lemma py_sorted_sorted (l : list string) : Sorted (fun a b => String.leb a b = true) (py_sorted l).
Proof. induction l as [|h t IH]; simpl; [constructor | now apply insert_sorted_sorted]. Qed.

(** X14: [sort] prints a permutation of the lines of the file, in
    non-decreasing string order. *)
Theorem sort_sorted_permutation (s : session) (name c : string) :
  read_file (host s) (path_div (current_dir s) name) = Some c ->
  exists out, cmd_sort [name] s = (ok (py_join nl out), s) /\
    Permutation out (splitlines (universal_newlines c)) /\
    Sorted (fun a b => String.leb a b = true) out.
Proof.
  intro Hc. exists (py_sorted (splitlines (universal_newlines c))).
  split; [unfold cmd_sort; now rewrite with_text_file with (c := c)|].
  split; [apply py_sorted_perm | apply py_sorted_sorted].
Qed.

Lemma sort_sorted_permutation_witness :
  exists out, cmd_sort ["b.txt"] work_session = (ok (py_join nl out), work_session) /\
    Permutation out ["one two"; "three"].
Proof.
  destruct (sort_sorted_permutation work_session "b.txt" work_text eq_refl)
    as [out [E [P _]]].
  exists out. split; [exact E | exact P].
Defined.






Lemma universal_newlines_length (s : string) :
  String.length (universal_newlines s) + count_crlf s = String.length s.
Proof.
  remember (String.length s) as n eqn:En. revert s En.
  induction n as [n IH] using lt_wf_ind. intros s En. subst n.
  destruct s as [|c r]; [reflexivity|]. simpl.
  destruct (Nat.eqb (nat_of_ascii c) 13); simpl.
  - destruct r as [|d r2]; [reflexivity|].
    destruct (Nat.eqb (nat_of_ascii d) 10); simpl.
    + pose proof (IH (String.length r2) ltac:(simpl; lia) r2 eq_refl). lia.
    + pose proof (IH (String.length (String d r2)) ltac:(simpl; lia) _ eq_refl). simpl in *. lia.
  - pose proof (IH (String.length r) ltac:(simpl; lia) r eq_refl). lia.
Qed.

Lemma universal_newlines_no_cr (s : string) :
  has_char (chr 13) s = false -> universal_newlines s = s.
Proof.
  induction s as [|c r IH]; simpl; [reflexivity|].
  intro H. apply orb_false_iff in H as [H1 H2].
  replace (Nat.eqb (nat_of_ascii c) 13) with false.
  - now rewrite IH.
  - symmetry. apply Nat.eqb_neq. intro E. apply Ascii.eqb_neq in H1. apply H1.
    rewrite <- (ascii_nat_embedding c), E. reflexivity.
Qed.

(** X16: [wc] counts the text as read with universal newlines: its
    character count is the stored length less one per \r\n pair, and the
    text is the stored one when it has no \r. *)
Theorem wc_counts_translated_text (s : session) (name c : string) :
  read_file (host s) (path_div (current_dir s) name) = Some c ->
  let u := universal_newlines c in
  cmd_wc [name] s =
    (ok (py_str_int (length (splitlines u)) ++ " " ++ py_str_int (length (py_split u)) ++ " "
         ++ py_str_int (String.length c - count_crlf c) ++ " " ++ name), s) /\
  (has_char (chr 13) c = false -> u = c).
Proof.
  intros Hc u. split.
  - unfold cmd_wc. rewrite with_text_file with (c := c) by exact Hc.
    pose proof (universal_newlines_length c). fold u in H |- *.
    replace (String.length c - count_crlf c) with (String.length u) by lia. reflexivity.
  - apply universal_newlines_no_cr.
Qed.

Lemma wc_counts_translated_text_witness :
  universal_newlines work_text = work_text.
Proof.
  exact (proj2 (wc_counts_translated_text work_session "b.txt" work_text eq_refl) eq_refl).
Defined.

(** ** [autocomplete] *)

Lemma lower_char_idem (c : ascii) : lower_char (lower_char c) = lower_char c.
Proof.
  unfold lower_char. destruct (Nat.leb 65 (nat_of_ascii c) && Nat.leb (nat_of_ascii c) 90) eqn:E.
  - apply andb_prop in E as [E1 E2]. apply Nat.leb_le in E1, E2.
    rewrite nat_ascii_embedding by lia.
    replace (Nat.leb 65 (nat_of_ascii c + 32) && Nat.leb (nat_of_ascii c + 32) 90) with false.
    + reflexivity.
    + symmetry. apply andb_false_iff. right. apply Nat.leb_gt. lia.
  - now rewrite E.
Qed.

Lemma py_lower_idem (p : string) : py_lower (py_lower p) = py_lower p.
Proof. induction p as [|c r IH]; simpl; [reflexivity | now rewrite lower_char_idem, IH]. Qed.

Lemma py_lower_empty (p : string) : String.eqb (py_lower p) "" = String.eqb p "".
Proof. destruct p; reflexivity. Qed.


(** X18: [autocomplete] gives the same suggestions for a prefix and for its
    lower-cased form. *)
Theorem autocomplete_case_insensitive (C : list string) (p : string) :
  autocomplete C (py_lower p) = autocomplete C p.
Proof. unfold autocomplete. now rewrite py_lower_empty, py_lower_idem. Qed.

(** ** [echo] through [execute] *)

Lemma rev_string_app (a b : string) : rev_string (a ++ b) = rev_string b ++ rev_string a.
Proof.
  induction a as [|x a IH]; simpl.
  - now rewrite append_empty_r.
  - now rewrite IH, append_assoc_s.
Qed.

Lemma rev_string_involutive (a : string) : rev_string (rev_string a) = a.
Proof. induction a as [|x a IH]; simpl; [reflexivity|]. now rewrite rev_string_app, IH. Qed.

Lemma plain_rev_head (w : string) :
  plain_word w = true -> exists d r, rev_string w = String d r /\ plain_char d = true.
Proof.
  unfold plain_word. induction w as [|c w IH]; [discriminate|].
  intro H. apply andb_prop in H as [_ H]. simpl in H. apply andb_prop in H as [Hc Hw].
  destruct w as [|c2 w'].
  - exists c, "". split; [reflexivity | exact Hc].
  - destruct IH as [d [r [Hr Hd]]]; [exact Hw|].
    exists d, (r ++ sstr c). split; [|exact Hd]. cbn [rev_string]. cbn [rev_string] in Hr.
    rewrite Hr. reflexivity.
Qed.

Lemma join_rev_head (w : string) (ws : list string) :
  forallb plain_word (w :: ws) = true ->
  exists d r, rev_string (py_join " " (w :: ws)) = String d r /\ plain_char d = true.
Proof.
  revert w. induction ws as [|w2 ws IH]; intros w H; simpl in H.
  - apply plain_rev_head. now rewrite andb_true_r in H.
  - apply andb_prop in H as [Hw H].
    destruct (IH w2 H) as [d [r [Hr Hd]]].
    exists d, (r ++ rev_string " " ++ rev_string w). split; [|exact Hd].
    unfold py_join in *. change (String.concat " " (w :: w2 :: ws))
      with (w ++ " " ++ String.concat " " (w2 :: ws)).
    rewrite !rev_string_app, Hr. simpl. now rewrite append_assoc_s.
Qed.

Lemma py_strip_plain (x : string) c r d r' :
  x = String c r -> py_isspace c = false ->
  rev_string x = String d r' -> py_isspace d = false -> py_strip x = x.
Proof.
  intros Hx Hc Hr Hd. unfold py_strip.
  replace (lstrip x) with x by (subst x; simpl; now rewrite Hc).
  replace (lstrip (rev_string x)) with (rev_string x) by (rewrite Hr; simpl; now rewrite Hd).
  apply rev_string_involutive.
Qed.

Lemma plain_not_shlex_space (c : ascii) : plain_char c = true -> shlex_space c = false.
Proof.
  unfold plain_char, py_isspace, shlex_space. intro H.
  apply andb_prop in H as [H _]. apply andb_prop in H as [H _].
  apply negb_true_iff in H. apply orb_false_iff in H as [H1 H2].
  destruct (Nat.eqb (nat_of_ascii c) 32) eqn:E32.
  - apply Nat.eqb_eq in E32. rewrite E32 in H2. discriminate.
  - destruct (Nat.eqb (nat_of_ascii c) 9) eqn:E9; [apply Nat.eqb_eq in E9; now rewrite E9 in H1|].
    destruct (Nat.eqb (nat_of_ascii c) 13) eqn:E13; [apply Nat.eqb_eq in E13; now rewrite E13 in H1|].
    destruct (Nat.eqb (nat_of_ascii c) 10) eqn:E10; [apply Nat.eqb_eq in E10; now rewrite E10 in H1|].
    reflexivity.
Qed.

Lemma plain_char_isspace (c : ascii) : plain_char c = true -> py_isspace c = false.
Proof.
  unfold plain_char. intro H. apply andb_prop in H as [H _]. apply andb_prop in H as [H _].
  now apply negb_true_iff.
Qed.

Lemma shlex_loop_word (w r tok : string) quoted acc :
  all_chars plain_char w = true ->
  shlex_loop (w ++ r) LWord tok quoted acc = shlex_loop r LWord (rev_string w ++ tok) quoted acc.
Proof.
  revert tok. induction w as [|c w IH]; intros tok H; [reflexivity|].
  simpl in H. apply andb_prop in H as [Hc Hw].
  cbn [append shlex_loop]. rewrite (plain_not_shlex_space c Hc).
  unfold plain_char in Hc. apply andb_prop in Hc as [Hc Hb]. apply andb_prop in Hc as [_ Hq].
  apply negb_true_iff in Hq, Hb. rewrite Hq, Hb.
  rewrite IH by exact Hw. cbn [rev_string]. rewrite append_assoc_s. reflexivity.
Qed.

Lemma shlex_loop_first (c : ascii) (w' r : string) acc :
  plain_char c = true -> all_chars plain_char w' = true ->
  shlex_loop (String c w' ++ r) LSpace "" false acc =
  shlex_loop r LWord (rev_string (String c w')) false acc.
Proof.
  intros Hc Hw'. cbn [append shlex_loop]. rewrite (plain_not_shlex_space c Hc).
  unfold plain_char in Hc. apply andb_prop in Hc as [Hc Hb]. apply andb_prop in Hc as [_ Hq].
  apply negb_true_iff in Hq, Hb. rewrite Hb, Hq.
  rewrite (shlex_loop_word _ _ _ _ _ Hw'). cbn [rev_string].
  reflexivity.
Qed.

Lemma shlex_loop_words (w : string) (ws : list string) acc :
  forallb plain_word (w :: ws) = true ->
  shlex_loop (py_join " " (w :: ws)) LSpace "" false acc = inr (rev acc ++ w :: ws)%list.
Proof.
  revert w acc. induction ws as [|w2 ws IH]; intros w acc H;
    simpl in H; apply andb_prop in H as [Hw H]; unfold plain_word in Hw;
    apply andb_prop in Hw as [Hne Hw];
    (destruct w as [|c w']; [discriminate|]);
    simpl in Hw; apply andb_prop in Hw as [Hc Hw']; unfold py_join.
  - replace (String.concat " " [String c w']) with (String c w' ++ "")
      by (now rewrite append_empty_r).
    rewrite (shlex_loop_first _ _ _ _ Hc Hw'). cbn [shlex_loop].
    rewrite rev_string_involutive. reflexivity.
  - change (String.concat " " (String c w' :: w2 :: ws))
      with (String c w' ++ " " ++ String.concat " " (w2 :: ws)).
    rewrite (shlex_loop_first _ _ _ _ Hc Hw'). cbn [append shlex_loop].
    replace (shlex_space " ") with true by reflexivity.
    change (String.concat " " (w2 :: ws)) with (py_join " " (w2 :: ws)); rewrite (IH w2 _ H). cbn [rev]. rewrite rev_string_involutive, <- app_assoc. reflexivity.
Qed.

(** X19: with [echo] registered, [execute] of [echo] followed by plain words
    (no whitespace, quote or backslash) prints the words joined by single
    spaces and leaves the session unchanged. *)
Theorem execute_echo_plain_words (C : list string) CH oh (s : session) (ws : list string) :
  str_mem "echo" C = true -> forallb plain_word ws = true ->
  execute C CH oh s (py_join " " ("echo" :: ws)) = (ok (py_join " " ws), s).
Proof.
  intros Hm Hw.
  assert (Hall : forallb plain_word ("echo" :: ws) = true) by (simpl; exact Hw).
  assert (Hs : py_strip (py_join " " ("echo" :: ws)) = py_join " " ("echo" :: ws)).
  { destruct (join_rev_head _ _ Hall) as [d [r [Hr Hd]]].
    destruct ws as [|w ws].
    - apply (py_strip_plain _ "e" "cho" d r); try reflexivity; [exact Hr | now apply plain_char_isspace].
    - apply (py_strip_plain _ "e" ("cho" ++ " " ++ py_join " " (w :: ws)) d r);
        try reflexivity; [exact Hr | now apply plain_char_isspace]. }
  assert (Hl : shlex_split (py_strip (py_join " " ("echo" :: ws))) = inr ("echo" :: ws)).
  { rewrite Hs. unfold shlex_split. now rewrite (shlex_loop_words _ _ [] Hall). }
  rewrite (execute_handler _ _ _ _ _ _ _ cmd_echo Hl Hm); reflexivity.
Qed.

Lemma execute_echo_plain_words_witness :
  execute ["echo"] [] idle_handler work_session "echo hello world"
  = (ok "hello world", work_session).
Proof.
  exact (execute_echo_plain_words ["echo"] [] idle_handler work_session
           ["hello"; "world"] eq_refl eq_refl).
Defined.
